(** * converte_base.py: the COTAHIST record decoder and the extraction loop

    A shallow embedding of [parse_line] and of the loop of [main] in
    [converte_base.py], together with the parts of the Python runtime the two
    rely on: string slicing, [str.strip], [int()], true division by a float,
    [datetime.strptime] and [datetime.strftime] for the one format each is
    called with.

    Characters are code points below 256 (the type [ascii] read as Latin-1);
    a Python [str] is a [string].  Python integers are [Z], Python floats are
    binary64 values of [SpecFloat].  Code that may raise lives in the error
    monad [result]; [try]/[except] is a combinator of that monad. *)

From Stdlib Require Import ZArith List String Ascii Bool Lia QArith Qabs.
From Stdlib Require Import SpecFloat.
Import ListNotations.

Local Open Scope string_scope.

(** ** Exceptions *)

(** The exceptions the modelled runtime calls can raise.  All three derive
    from [Exception]. *)
Inductive exn : Type :=
  | ValueError
  | OverflowError
  | ZeroDivisionError.

Inductive result (A : Type) : Type :=
  | Ok (a : A)
  | Raise (e : exn).

Arguments Ok {A} a.
Arguments Raise {A} e.

Definition ret {A : Type} (a : A) : result A := Ok a.

Definition bind {A B : Type} (c : result A) (k : A -> result B) : result B :=
  match c with
  | Ok a => k a
  | Raise e => Raise e
  end.

Declare Scope py_scope.
Delimit Scope py_scope with py.
Notation "x <- c ;; k" := (bind c (fun x => k))
  (at level 61, c at next level, right associativity) : py_scope.
Notation "' p <- c ;; k" := (bind c (fun x => let 'p := x in k))
  (at level 61, p pattern, c at next level, right associativity) : py_scope.
Local Open Scope py_scope.

(** [isinstance(e, Exception)]: what an [except Exception:] clause catches. *)
Definition is_Exception (e : exn) : bool :=
  match e with
  | ValueError | OverflowError | ZeroDivisionError => true
  end.

(** [try: c  except: h] (a bare [except] catches everything). *)
Definition try_except {A : Type} (c : result A) (h : result A) : result A :=
  match c with
  | Ok a => Ok a
  | Raise _ => h
  end.

(** [try: c  except Exception: h]. *)
Definition try_except_Exception {A : Type} (c : result A) (h : result A)
  : result A :=
  match c with
  | Ok a => Ok a
  | Raise e => if is_Exception e then h else Raise e
  end.

(** ** Characters *)

Definition ord (c : ascii) : nat := nat_of_ascii c.

(** [str.isspace] on one character, for code points below 256: TAB..CR,
    FS..US, SPACE, NEL and NBSP. *)
Definition isspace (c : ascii) : bool :=
  ((9 <=? ord c)%nat && (ord c <=? 13)%nat)
  || ((28 <=? ord c)%nat && (ord c <=? 31)%nat)
  || (ord c =? 32)%nat || (ord c =? 133)%nat || (ord c =? 160)%nat.

(** The white space [int()] skips: the C-locale white space TAB..CR and
    SPACE, and the non-ASCII spaces, which [int()] first rewrites to SPACE.
    The separators FS..US are not skipped. *)
Definition isspace_int (c : ascii) : bool :=
  ((9 <=? ord c)%nat && (ord c <=? 13)%nat)
  || (ord c =? 32)%nat || (ord c =? 133)%nat || (ord c =? 160)%nat.

Definition isdigit (c : ascii) : bool :=
  (48 <=? ord c)%nat && (ord c <=? 57)%nat.

Definition digit_value (c : ascii) : Z := Z.of_nat (ord c) - 48.

Definition is_char (k : ascii) (c : ascii) : bool := (ord c =? ord k)%nat.

Definition in_range (lo hi : ascii) (c : ascii) : bool :=
  (ord lo <=? ord c)%nat && (ord c <=? ord hi)%nat.

(** ** Slicing and trimming *)

Fixpoint drop (n : nat) (s : string) : string :=
  match n, s with
  | O, _ => s
  | S _, EmptyString => EmptyString
  | S n', String _ s' => drop n' s'
  end.

Fixpoint take (n : nat) (s : string) : string :=
  match n, s with
  | O, _ => EmptyString
  | S _, EmptyString => EmptyString
  | S n', String c s' => String c (take n' s')
  end.

(** [s[a:b]] for constant bounds [0 <= a], [0 <= b]: out-of-range bounds are
    clipped to the length of [s]. *)
Definition py_slice (a b : nat) (s : string) : string :=
  take (b - a) (drop a s).

(** [s[a:]]. *)
Definition py_slice_from (a : nat) (s : string) : string := drop a s.

Fixpoint lstrip (s : string) : string :=
  match s with
  | EmptyString => EmptyString
  | String c s' => if isspace c then lstrip s' else s
  end.

Fixpoint rstrip (s : string) : string :=
  match s with
  | EmptyString => EmptyString
  | String c s' =>
      match rstrip s' with
      | EmptyString => if isspace c then EmptyString else String c EmptyString
      | r => String c r
      end
  end.

(** [s.strip()]. *)
Definition py_strip (s : string) : string := rstrip (lstrip s).

(** ** [int(s)] in base 10 *)

Fixpoint skip_space (s : string) : string :=
  match s with
  | EmptyString => EmptyString
  | String c s' => if isspace_int c then skip_space s' else s
  end.

(** The digit loop of [PyLong_FromString]: digits and single underscores.
    [prev_us] tells that the previous character was an underscore; the result
    is the value read, the number of digits and the unread rest. *)
Fixpoint scan_digits (s : string) (prev_us : bool) (acc : Z) (nd : nat)
  : result (Z * nat * string) :=
  match s with
  | EmptyString =>
      if prev_us then Raise ValueError else Ok (acc, nd, EmptyString)
  | String c s' =>
      if isdigit c then scan_digits s' false (10 * acc + digit_value c) (S nd)
      else if is_char "_" c then
        if prev_us then Raise ValueError else scan_digits s' true acc nd
      else if prev_us then Raise ValueError else Ok (acc, nd, s)
  end.

(** The default of [sys.get_int_max_str_digits()]. *)
Definition max_str_digits : nat := 4300.

Definition read_sign (s : string) : bool * string :=
  match s with
  | String c s' =>
      if is_char "+" c then (false, s')
      else if is_char "-" c then (true, s')
      else (false, s)
  | EmptyString => (false, s)
  end.

Definition starts_with_underscore (s : string) : bool :=
  match s with
  | String c _ => is_char "_" c
  | EmptyString => false
  end.

(** The part of [int()] after the sign: no leading underscore, the digit
    loop, the limit on the number of digits, at least one digit, and nothing
    but white space after the digits. *)
Definition read_digits (neg : bool) (body : string) : result Z :=
  if starts_with_underscore body then Raise ValueError
  else
    '(acc, nd, rest) <- scan_digits body false 0 0 ;;
    if (max_str_digits <? nd)%nat then Raise ValueError
    else if (nd =? 0)%nat then Raise ValueError
    else
      match skip_space rest with
      | EmptyString => Ok (if neg then (- acc)%Z else acc)
      | String _ _ => Raise ValueError
      end.

(** [int(s)]: white space, a sign, then the digits. *)
Definition py_int (s : string) : result Z :=
  let '(neg, body) := read_sign (skip_space s) in
  read_digits neg body.

(** ** Floats: [n / 100.0] *)

(** Python floats are IEEE 754 binary64 values. *)
Definition prec : Z := 53.
Definition emax : Z := 1024.

Definition float : Type := spec_float.

(** Conversion of an integer operand to a float ([PyLong_AsDouble]): rounds to
    nearest, ties to even; a value that rounds beyond the finite range raises
    [OverflowError]. *)
Definition float_of_int (n : Z) : result float :=
  match binary_normalize prec emax n 0 false with
  | S754_infinity _ => Raise OverflowError
  | x => Ok x
  end.

(** [a / b] on floats. *)
Definition float_truediv (a b : float) : result float :=
  match b with
  | S754_zero _ => Raise ZeroDivisionError
  | _ => Ok (SFdiv prec emax a b)
  end.

(** The literal [100.0]. *)
Definition float_100 : float :=
  Eval vm_compute in binary_normalize prec emax 100 0 false.

(** [n / x] for an integer [n] and a float [x]. *)
Definition int_truediv_float (n : Z) (x : float) : result float :=
  a <- float_of_int n ;; float_truediv a x.

(** The rational a finite float stands for (0 for the other values). *)
Definition float_value (x : float) : Q :=
  match x with
  | S754_finite s m e =>
      (inject_Z (if s then Z.neg m else Z.pos m) * Qpower (2 # 1) e)%Q
  | _ => 0%Q
  end.

(** ** Dates: [datetime.strptime(s, "%Y%m%d")] and [strftime("%Y-%m-%d")] *)

(** The date part of a [datetime]; [strptime] with this format leaves the time
    of day at midnight. *)
Record datetime : Type := {
  year : Z;
  month : Z;
  day : Z
}.

Definition is_leap (y : Z) : bool :=
  ((y mod 4 =? 0) && (negb (y mod 100 =? 0) || (y mod 400 =? 0)))%Z.

Definition days_in_month (y m : Z) : Z :=
  if (m =? 2)%Z then (if is_leap y then 29 else 28)%Z
  else if ((m =? 4) || (m =? 6) || (m =? 9) || (m =? 11))%Z then 30%Z
  else 31%Z.

(** The constructor [datetime(y, m, d)]. *)
Definition datetime_new (y m d : Z) : result datetime :=
  if negb ((1 <=? y) && (y <=? 9999))%Z then Raise ValueError
  else if negb ((1 <=? m) && (m <=? 12))%Z then Raise ValueError
  else if negb ((1 <=? d) && (d <=? days_in_month y m))%Z then Raise ValueError
  else Ok {| year := y; month := m; day := d |}.

(** One alternative of a regular expression made of two, or of one, character
    classes: the matches at the start of [s], as (matched text, rest). *)
Definition alt2 (p1 p2 : ascii -> bool) (s : string) : list (string * string) :=
  match s with
  | String a (String b r) =>
      if p1 a && p2 b then [(String a (String b EmptyString), r)] else []
  | _ => []
  end.

Definition alt1 (p : ascii -> bool) (s : string) : list (string * string) :=
  match s with
  | String a r => if p a then [(String a EmptyString, r)] else []
  | EmptyString => []
  end.

(** [(?P<Y>\d\d\d\d)] *)
Definition match_Y (s : string) : list (string * string) :=
  match s with
  | String a (String b (String c (String d r))) =>
      if isdigit a && isdigit b && isdigit c && isdigit d
      then [(String a (String b (String c (String d EmptyString))), r)]
      else []
  | _ => []
  end.

(** [(?P<m>1[0-2]|0[1-9]|[1-9])], the alternatives in the order the matcher
    tries them. *)
Definition match_m (s : string) : list (string * string) :=
  alt2 (is_char "1") (in_range "0" "2") s
  ++ alt2 (is_char "0") (in_range "1" "9") s
  ++ alt1 (in_range "1" "9") s.

(** [(?P<d>3[0-1]|[1-2]\d|0[1-9]|[1-9]| [1-9])] *)
Definition match_d (s : string) : list (string * string) :=
  alt2 (is_char "3") (in_range "0" "1") s
  ++ alt2 (in_range "1" "2") isdigit s
  ++ alt2 (is_char "0") (in_range "1" "9") s
  ++ alt1 (in_range "1" "9") s
  ++ alt2 (is_char " ") (in_range "1" "9") s.

Fixpoint first_some {A B : Type} (f : A -> option B) (l : list A) : option B :=
  match l with
  | [] => None
  | a :: l' =>
      match f a with
      | Some b => Some b
      | None => first_some f l'
      end
  end.

(** [re.match] of the pattern for ["%Y%m%d"]: the first match in backtracking
    order, anchored at the start only.  Yields the three groups and the text
    left after the match. *)
Definition regex_match (s : string) : option (string * string * string * string) :=
  first_some (fun '(gY, r1) =>
    first_some (fun '(gm, r2) =>
      first_some (fun '(gd, r3) => Some (gY, gm, gd, r3)) (match_d r2))
      (match_m r1))
    (match_Y s).

Definition strptime (data_string : string) : result datetime :=
  match regex_match data_string with
  | None => Raise ValueError
  | Some (gY, gm, gd, rest) =>
      match rest with
      | String _ _ => Raise ValueError
      | EmptyString =>
          y <- py_int gY ;;
          m <- py_int gm ;;
          d <- py_int gd ;;
          datetime_new y m d
      end
  end.

Definition digit_char (d : Z) : ascii := ascii_of_nat (48 + Z.to_nat d).

Fixpoint decimal_aux (fuel : nat) (n : Z) (acc : string) : string :=
  match fuel with
  | O => acc
  | S fuel' =>
      let acc' := String (digit_char (n mod 10)) acc in
      if (n / 10 =? 0)%Z then acc' else decimal_aux fuel' (n / 10) acc'
  end.

(** A non-negative integer in decimal, without padding. *)
Definition decimal (n : Z) : string :=
  decimal_aux (S (Z.to_nat (Z.log2 n))) n EmptyString.

(** Two decimal digits, zero padded. *)
Definition pad2 (n : Z) : string :=
  String (digit_char (n / 10)) (String (digit_char (n mod 10)) EmptyString).


(** [dt.strftime("%Y-%m-%d")].  The format goes to the C library: [%m] and
    [%d] are two digits wide; [%Y] is the year in decimal, which glibc does
    not pad, so a year below 1000 comes out with fewer than four digits. *)
Definition strftime (dt : datetime) : string :=
  decimal (year dt) ++ "-" ++ pad2 (month dt) ++ "-" ++ pad2 (day dt).

(** ** [parse_line] *)

(** The dictionary [registro] that [parse_line] returns: its keys are fixed,
    so it is a record.  [None] in a price field is Python's [None]. *)
Record Registro : Type := {
  codigo_registro : string;
  data_pregao : string;
  codigo_mercado : string;
  ativo : string;
  codigo_bdi : string;
  nome : string;
  especificador : string;
  identificacao_mercado : string;
  moeda_cotacao : string;
  preco_abertura : option float;
  preco_maximo : option float;
  preco_minimo : option float;
  preco_fechamento : option float;
  preco_melhor_compra : option float;
  preco_melhor_venda : option float;
  numero_negocios : Z;
  quantidade_acoes : Z;
  volume_financeiro : option float;
  preco_fechamento_ajustado : option float;
  fator_ajuste : Z;
  codigo_papel_registro : string
}.

(** The inner function [convert_price]. *)
Definition convert_price (valor_str : string) : result (option float) :=
  try_except
    (n <- py_int valor_str ;;
     x <- int_truediv_float n float_100 ;;
     ret (Some x))
    (ret None).

(** [try: v = int(s)  except: v = 0]. *)
Definition int_or_zero (s : string) : result Z :=
  try_except (py_int s) (ret 0%Z).

(** The conversion of the date: [strptime] then [strftime], the raw slice when
    either raises. *)
Definition format_date (data_pregao : string) : result string :=
  try_except_Exception
    (dt <- strptime data_pregao ;; ret (strftime dt))
    (ret data_pregao).

Definition parse_line (line : string) : result Registro :=
  let codigo_registro := py_slice 0 2 line in
  let data_pregao := py_slice 2 10 line in
  let codigo_mercado := py_slice 10 12 line in
  let codigo_negociacao := py_strip (py_slice 12 24 line) in
  let codigo_bdi := py_slice 24 27 line in
  let denominacao := py_strip (py_slice 27 39 line) in
  let especificador := py_strip (py_slice 39 47 line) in
  let identificacao_mercado := py_strip (py_slice 47 52 line) in
  let moeda_cotacao := py_strip (py_slice 52 56 line) in
  let preco_abertura := py_slice 56 69 line in
  let preco_maximo := py_slice 69 82 line in
  let preco_minimo := py_slice 82 95 line in
  let preco_fechamento := py_slice 95 108 line in
  let preco_melhor_compra := py_slice 108 121 line in
  let preco_melhor_venda := py_slice 121 134 line in
  let numero_negocios := py_slice 134 141 line in
  let quantidade_acoes := py_slice 141 157 line in
  let volume_financeiro := py_slice 157 173 line in
  let preco_fechamento_ajustado := py_slice 173 186 line in
  let fator_ajuste := py_slice 186 190 line in
  let codigo_papel_registro :=
    if (190 <? String.length line)%nat
    then py_strip (py_slice_from 190 line)
    else EmptyString in
  data_pregao_formatada <- format_date data_pregao ;;
  preco_abertura_val <- convert_price preco_abertura ;;
  preco_maximo_val <- convert_price preco_maximo ;;
  preco_minimo_val <- convert_price preco_minimo ;;
  preco_fechamento_val <- convert_price preco_fechamento ;;
  preco_melhor_compra_val <- convert_price preco_melhor_compra ;;
  preco_melhor_venda_val <- convert_price preco_melhor_venda ;;
  preco_fechamento_ajustado_val <- convert_price preco_fechamento_ajustado ;;
  volume_financeiro_val <- convert_price volume_financeiro ;;
  numero_negocios_val <- int_or_zero numero_negocios ;;
  quantidade_acoes_val <- int_or_zero quantidade_acoes ;;
  fator_ajuste_val <- int_or_zero fator_ajuste ;;
  ret (Build_Registro
         codigo_registro
         data_pregao_formatada
         codigo_mercado
         codigo_negociacao
         codigo_bdi
         denominacao
         especificador
         identificacao_mercado
         moeda_cotacao
         preco_abertura_val
         preco_maximo_val
         preco_minimo_val
         preco_fechamento_val
         preco_melhor_compra_val
         preco_melhor_venda_val
         numero_negocios_val
         quantidade_acoes_val
         volume_financeiro_val
         preco_fechamento_ajustado_val
         fator_ajuste_val
         codigo_papel_registro).

(** ** The extraction loop of [main] *)

(** What the loop reads from the command line: the set [ativos] of wanted
    tickers (only ever tested for membership, so a list stands for it) and the
    optional [--limit]. *)
Record Args : Type := {
  ativos : list string;
  limit : option Z
}.

(** What the loop changes: the rows handed to [writer.writerow], oldest
    first, and the counter [linhas_processadas]. *)
Record State : Type := {
  sink : list Registro;
  linhas_processadas : Z
}.

(** How one pass through a loop body ends: it falls through or hits
    [continue], it hits [break], or an exception leaves the loop. *)
Inductive flow : Type :=
  | Continue
  | Break
  | Abort (e : exn).

(** [x in ativos] *)
Definition mem (x : string) (xs : list string) : bool :=
  existsb (String.eqb x) xs.

(** [limit is not None and linhas_processadas >= limit] *)
Definition limit_reached (a : Args) (st : State) : bool :=
  match limit a with
  | None => false
  | Some l => (l <=? linhas_processadas st)%Z
  end.

Definition writerow (registro : Registro) (st : State) : State :=
  {| sink := sink st ++ [registro];
     linhas_processadas := (linhas_processadas st + 1)%Z |}.

Section Loop.

(** The decoder the loop calls; [main] calls [parse_line]. *)
Variable decode : string -> result Registro.
Variable a : Args.

(** The body of [for line in infile]. *)
Definition line_body (line : string) (st : State) : flow * State :=
  if (String.length line <? 2)%nat then (Continue, st)
  else if negb (py_slice 0 2 line =? "01") then (Continue, st)
  else
    match decode line with
    | Raise e => (Abort e, st)
    | Ok registro =>
        if negb (mem (ativo registro) (ativos a)) then (Continue, st)
        else
          let st' := writerow registro st in
          if limit_reached a st' then (Break, st') else (Continue, st')
    end.

(** [for line in infile: ...] *)
Fixpoint for_lines (infile : list string) (st : State) : flow * State :=
  match infile with
  | [] => (Continue, st)
  | line :: rest =>
      match line_body line st with
      | (Continue, st') => for_lines rest st'
      | stop => stop
      end
  end.

(** The body of [for arq in arquivos]: the inner loop, then the second
    test of the limit. *)
Definition file_body (infile : list string) (st : State) : flow * State :=
  match for_lines infile st with
  | (Abort e, st') => (Abort e, st')
  | (_, st') => if limit_reached a st' then (Break, st') else (Continue, st')
  end.

(** [for arq in arquivos: ...], each source given as its lines. *)
Fixpoint for_files (arquivos : list (list string)) (st : State)
  : flow * State :=
  match arquivos with
  | [] => (Continue, st)
  | infile :: rest =>
      match file_body infile st with
      | (Continue, st') => for_files rest st'
      | stop => stop
      end
  end.

End Loop.

Definition initial_state : State := {| sink := []; linhas_processadas := 0 |}.

(** The run of [main] on already listed sources: the rows written after the
    header and the total it reports. *)
Definition extract (a : Args) (arquivos : list (list string)) : flow * State :=
  for_files parse_line a arquivos initial_state.

(** ** Vocabulary of the statements *)

Fixpoint string_forall (p : ascii -> bool) (s : string) : bool :=
  match s with
  | EmptyString => true
  | String c s' => p c && string_forall p s'
  end.

(** The number a run of decimal digits denotes, most significant digit
    first. *)
Fixpoint digits_value (s : string) : Z :=
  match s with
  | EmptyString => 0%Z
  | String c s' =>
      (digit_value c * 10 ^ Z.of_nat (String.length s') + digits_value s')%Z
  end.

(** A non-empty run of decimal digits. *)
Definition digit_run (s : string) : Prop :=
  s <> EmptyString /\ string_forall isdigit s = true.

(** [digit_groups body ds]: [body] is one or more digit runs joined by single
    underscores, and [ds] is [body] without the underscores. *)
Inductive digit_groups : string -> string -> Prop :=
  | groups_one : forall ds, digit_run ds -> digit_groups ds ds
  | groups_more : forall ds body ds',
      digit_run ds -> digit_groups body ds' ->
      digit_groups (ds ++ "_" ++ body) (ds ++ ds').

(** An optional sign and the factor it stands for. *)
Inductive sign_text : string -> Z -> Prop :=
  | sign_none : sign_text "" 1%Z
  | sign_plus : sign_text "+" 1%Z
  | sign_minus : sign_text "-" (-1)%Z.

(** The base-10 integer literals of Python's [int()]: white space, an
    optional sign, digit groups, white space; at most [max_str_digits]
    digits. *)
Inductive int_literal : string -> Z -> Prop :=
  | int_literal_intro : forall ws1 sg k body ds ws2,
      string_forall isspace_int ws1 = true ->
      sign_text sg k ->
      digit_groups body ds ->
      (String.length ds <= max_str_digits)%nat ->
      string_forall isspace_int ws2 = true ->
      int_literal (ws1 ++ sg ++ body ++ ws2) (k * digits_value ds)%Z.

(** The float [n / 100.0] when [n] converts without overflow. *)
Definition div100 (n : Z) : float :=
  SFdiv prec emax (binary_normalize prec emax n 0 false) float_100.

(** [s] ends with [t]. *)
Definition ends_with (s t : string) : Prop := exists p, s = p ++ t.

(** [n] copies of the character [c]. *)
Fixpoint replicate (n : nat) (c : ascii) : string :=
  match n with
  | O => EmptyString
  | S n' => String c (replicate n' c)
  end.

(** The layout of the price and volume columns: start, end and the key of
    the decoded value. *)
Definition price_fields : list (nat * nat * (Registro -> option float)) :=
  [ (56, 69, preco_abertura);
    (69, 82, preco_maximo);
    (82, 95, preco_minimo);
    (95, 108, preco_fechamento);
    (108, 121, preco_melhor_compra);
    (121, 134, preco_melhor_venda);
    (173, 186, preco_fechamento_ajustado);
    (157, 173, volume_financeiro) ]%nat.

(** The layout of the integer columns. *)
Definition integer_fields : list (nat * nat * (Registro -> Z)) :=
  [ (134, 141, numero_negocios);
    (141, 157, quantidade_acoes);
    (186, 190, fator_ajuste) ]%nat.

(** The layout of the text columns that are trimmed, and of those that are
    kept as sliced. *)
Definition trimmed_fields : list (nat * nat * (Registro -> string)) :=
  [ (12, 24, ativo);
    (27, 39, nome);
    (39, 47, especificador);
    (47, 52, identificacao_mercado);
    (52, 56, moeda_cotacao) ]%nat.

Definition raw_fields : list (nat * nat * (Registro -> string)) :=
  [ (0, 2, codigo_registro);
    (10, 12, codigo_mercado);
    (24, 27, codigo_bdi) ]%nat.

(** A line the loop passes over: too short, or not a data row. *)
Definition anomalous (line : string) : Prop :=
  (String.length line < 2)%nat \/ py_slice 0 2 line <> "01".

Definition first_char (s : string) : option ascii :=
  match s with
  | String c _ => Some c
  | EmptyString => None
  end.

Fixpoint last_char (s : string) : option ascii :=
  match s with
  | EmptyString => None
  | String c EmptyString => Some c
  | String _ s' => last_char s'
  end.

(** A text with no white space at either end. *)
Definition trimmed (t : string) : Prop :=
  (forall c, first_char t = Some c -> isspace c = false)
  /\ (forall c, last_char t = Some c -> isspace c = false).

(** A text at which the digit loop of [int()] stops: the end, or a character
    that is neither a digit nor an underscore. *)
Definition stops_scan (t : string) : Prop :=
  forall c, first_char t = Some c -> isdigit c = false /\ is_char "_" c = false.

(** The outcome of each of the three guarded conversions, as a plain
    function of the slice. *)
Definition date_text (s : string) : string :=
  match strptime s with
  | Ok dt => strftime dt
  | Raise _ => s
  end.

Definition price_value (s : string) : option float :=
  match py_int s with
  | Ok n => Some (div100 n)
  | Raise _ => None
  end.

Definition integer_value (s : string) : Z :=
  match py_int s with
  | Ok n => n
  | Raise _ => 0%Z
  end.

Definition tail_text (line : string) : string :=
  if (190 <? String.length line)%nat
  then py_strip (py_slice_from 190 line)
  else EmptyString.

(** The record [parse_line] builds, field by field. *)
Definition decoded (line : string) : Registro :=
  {| codigo_registro := py_slice 0 2 line;
     data_pregao := date_text (py_slice 2 10 line);
     codigo_mercado := py_slice 10 12 line;
     ativo := py_strip (py_slice 12 24 line);
     codigo_bdi := py_slice 24 27 line;
     nome := py_strip (py_slice 27 39 line);
     especificador := py_strip (py_slice 39 47 line);
     identificacao_mercado := py_strip (py_slice 47 52 line);
     moeda_cotacao := py_strip (py_slice 52 56 line);
     preco_abertura := price_value (py_slice 56 69 line);
     preco_maximo := price_value (py_slice 69 82 line);
     preco_minimo := price_value (py_slice 82 95 line);
     preco_fechamento := price_value (py_slice 95 108 line);
     preco_melhor_compra := price_value (py_slice 108 121 line);
     preco_melhor_venda := price_value (py_slice 121 134 line);
     numero_negocios := integer_value (py_slice 134 141 line);
     quantidade_acoes := integer_value (py_slice 141 157 line);
     volume_financeiro := price_value (py_slice 157 173 line);
     preco_fechamento_ajustado := price_value (py_slice 173 186 line);
     fator_ajuste := integer_value (py_slice 186 190 line);
     codigo_papel_registro := tail_text line |}.








(** ** Sample lines *)

Definition newline : string := String "010"%char EmptyString.

(** A data row of exactly 190 characters for the ticker VALE3. *)
Definition record_190 : string :=
  "01" ++ "20240102" ++ "02" ++ "VALE3       " ++ "010" ++ "VALE        "
  ++ "ON      " ++ "     " ++ "R$  "
  ++ "0000000007700" ++ "0000000007800" ++ "0000000007650"
  ++ "0000000007750" ++ "0000000007740" ++ "0000000007760"
  ++ "0012345" ++ "0000000001000000" ++ "0000000077500000"
  ++ "0000000007750" ++ "0001".

(** The same row as a file holds it: with its code of the security and the
    end of line. *)
Definition line_vale3 : string := record_190 ++ "BRVALE3ACNO" ++ newline.

(** A line of 195 characters that ends with the text BRVALE3ACNO. *)
Definition line_195 : string := "01" ++ replicate 182 "0" ++ "BRVALE3ACNO".

(** The rows in the sink are as many as the counter says. *)
Definition counted (st : State) : Prop :=
  Z.of_nat (List.length (sink st)) = linhas_processadas st.

(** A data row for the ticker PETR4. *)
Definition line_petr4 : string :=
  "01" ++ "20240102" ++ "02" ++ "PETR4       " ++ "010" ++ "PETROBRAS   "
  ++ "PN      " ++ "     " ++ "R$  "
  ++ "0000000003700" ++ "0000000003800" ++ "0000000003650"
  ++ "0000000003750" ++ "0000000003740" ++ "0000000003760"
  ++ "0054321" ++ "0000000002000000" ++ "0000000075000000"
  ++ "0000000003750" ++ "0001" ++ "BRPETRACNPR6" ++ newline.

(** ** The rest of [main]: the wanted tickers and the rows of the CSV *)

(** [s.split(sep)] for a separator of one character: the pieces between the
    separators, at least one piece. *)
Fixpoint py_split (sep : ascii) (s : string) : list string :=
  match s with
  | EmptyString => [EmptyString]
  | String c s' =>
      if Ascii.eqb c sep then EmptyString :: py_split sep s'
      else
        match py_split sep s' with
        | p :: ps => String c p :: ps
        | [] => [String c EmptyString]
        end
  end.

(** [set(args.ativos.split(","))], as the list of its members. *)
Definition parse_ativos (arg : string) : list string := py_split "," arg.

(** What a cell of the dictionary [registro] holds. *)
Inductive value : Type :=
  | VStr (s : string)
  | VInt (n : Z)
  | VFloat (x : float)
  | VNone.

Definition value_of_price (o : option float) : value :=
  match o with
  | Some x => VFloat x
  | None => VNone
  end.

(** The dictionary literal of [parse_line]: its keys, in the order written,
    each with its value. *)
Definition registro_items (r : Registro) : list (string * value) :=
  [ ("codigo_registro", VStr (codigo_registro r));
    ("data_pregao", VStr (data_pregao r));
    ("codigo_mercado", VStr (codigo_mercado r));
    ("ativo", VStr (ativo r));
    ("codigo_bdi", VStr (codigo_bdi r));
    ("nome", VStr (nome r));
    ("especificador", VStr (especificador r));
    ("identificacao_mercado", VStr (identificacao_mercado r));
    ("moeda_cotacao", VStr (moeda_cotacao r));
    ("preco_abertura", value_of_price (preco_abertura r));
    ("preco_maximo", value_of_price (preco_maximo r));
    ("preco_minimo", value_of_price (preco_minimo r));
    ("preco_fechamento", value_of_price (preco_fechamento r));
    ("preco_melhor_compra", value_of_price (preco_melhor_compra r));
    ("preco_melhor_venda", value_of_price (preco_melhor_venda r));
    ("numero_negocios", VInt (numero_negocios r));
    ("quantidade_acoes", VInt (quantidade_acoes r));
    ("volume_financeiro", value_of_price (volume_financeiro r));
    ("preco_fechamento_ajustado", value_of_price (preco_fechamento_ajustado r));
    ("fator_ajuste", VInt (fator_ajuste r));
    ("codigo_papel_registro", VStr (codigo_papel_registro r)) ].

(** The list [fieldnames] of [main]. *)
Definition fieldnames : list string :=
  [ "codigo_registro";
    "data_pregao";
    "codigo_mercado";
    "ativo";
    "codigo_bdi";
    "nome";
    "especificador";
    "identificacao_mercado";
    "moeda_cotacao";
    "preco_abertura";
    "preco_maximo";
    "preco_minimo";
    "preco_fechamento";
    "preco_melhor_compra";
    "preco_melhor_venda";
    "numero_negocios";
    "quantidade_acoes";
    "volume_financeiro";
    "preco_fechamento_ajustado";
    "fator_ajuste";
    "codigo_papel_registro" ].

(** [rowdict.get(key)] *)
Fixpoint dict_get (key : string) (rowdict : list (string * value))
  : option value :=
  match rowdict with
  | [] => None
  | (k, v) :: rest => if (k =? key) then Some v else dict_get key rest
  end.

(** The row [csv.DictWriter] writes for a dictionary, with its defaults: a
    key that is no field name raises [ValueError], a field name that is no
    key gives the empty text. *)
Definition dict_to_list (names : list string) (rowdict : list (string * value))
  : result (list value) :=
  if existsb (fun kv => negb (mem (fst kv) names)) rowdict
  then Raise ValueError
  else Ok (map (fun key =>
                  match dict_get key rowdict with
                  | Some v => v
                  | None => VStr EmptyString
                  end) names).

(** ** Vocabulary of the statements about the loop *)

(** [sep.join(parts)] *)
Fixpoint py_join (sep : string) (parts : list string) : string :=
  match parts with
  | [] => EmptyString
  | [p] => p
  | p :: rest => p ++ sep ++ py_join sep rest
  end.

(** The lines the loop writes a row for: the first two characters are "01"
    and the trimmed characters 12 to 24 are a wanted ticker. *)
Definition wanted (a : Args) (line : string) : bool :=
  (py_slice 0 2 line =? "01")
  && mem (py_strip (py_slice 12 24 line)) (ativos a).

(** The rows of the wanted lines, in the order of the lines. *)
Definition wanted_rows (a : Args) (lines : list string) : list Registro :=
  map decoded (filter (wanted a) lines).

(** The state after [rows] more rows are written. *)
Definition add_rows (rows : list Registro) (st : State) : State :=
  {| sink := (sink st ++ rows)%list;
     linhas_processadas :=
       (linhas_processadas st + Z.of_nat (List.length rows))%Z |}.

(** How many rows may still be written from the state [st] under the
    limit [l]. *)
Definition room (l : Z) (st : State) : nat :=
  Z.to_nat (l - linhas_processadas st).

(** The ranges of the fixed columns, in the order [parse_line] slices
    them. *)
Definition columns : list (nat * nat) :=
  [ (0, 2); (2, 10); (10, 12); (12, 24); (24, 27); (27, 39); (39, 47);
    (47, 52); (52, 56); (56, 69); (69, 82); (82, 95); (95, 108); (108, 121);
    (121, 134); (134, 141); (141, 157); (157, 173); (173, 186);
    (186, 190) ]%nat.

(** A float that is a zero or a finite number of the given sign. *)
Definition finite_with_sign (sg : bool) (x : float) : Prop :=
  x = S754_zero sg \/ exists m e, x = S754_finite sg m e.

(** How many times the character [c] occurs in [s]. *)
Fixpoint count_char (c : ascii) (s : string) : nat :=
  match s with
  | EmptyString => O
  | String x s' => (if Ascii.eqb x c then 1 else 0) + count_char c s'
  end.

(** The slices of the fixed columns of a line, one after the other. *)
Definition column_slices (line : string) : list string :=
  map (fun ab => py_slice (fst ab) (snd ab) line) columns.

(** The ranges the field tables and the date use. *)
Definition field_ranges : list (nat * nat) :=
  map fst raw_fields ++ [(2, 10)%nat] ++ map fst trimmed_fields
  ++ map fst price_fields ++ map fst integer_fields.

(** * Properties *)

(** ** Characters *)

Arguments ord : simpl never.
#[local] Arguments Z.mul : simpl never.
#[local] Arguments Z.add : simpl never.
#[local] Arguments Z.sub : simpl never.
#[local] Arguments Z.opp : simpl never.
#[local] Arguments Z.pow : simpl never.
#[local] Arguments Z.of_nat : simpl never.

Ltac ord_consts :=
  change (ord "_"%char) with 95%nat in *;
  change (ord "+"%char) with 43%nat in *;
  change (ord "-"%char) with 45%nat in *;
  change (ord " "%char) with 32%nat in *;
  change (ord "0"%char) with 48%nat in *;
  change (ord "1"%char) with 49%nat in *;
  change (ord "2"%char) with 50%nat in *;
  change (ord "3"%char) with 51%nat in *;
  change (ord "9"%char) with 57%nat in *.

Ltac bool_arith :=
  unfold isspace, isspace_int, isdigit, is_char, in_range, digit_value in *;
  ord_consts;
  repeat match goal with
  | |- context [(?x <=? ?y)%nat] => destruct (Nat.leb_spec x y)
  | |- context [(?x =? ?y)%nat] => destruct (Nat.eqb_spec x y)
  | H : context [(?x <=? ?y)%nat] |- _ => destruct (Nat.leb_spec x y)
  | H : context [(?x =? ?y)%nat] |- _ => destruct (Nat.eqb_spec x y)
  end;
  simpl in *; try reflexivity; try discriminate; try lia.

Lemma isdigit_not_space (c : ascii) : isdigit c = true -> isspace_int c = false.
Proof. intros H. bool_arith. Qed.

Lemma isdigit_not_sign (c : ascii) :
  isdigit c = true ->
  is_char "+" c = false /\ is_char "-" c = false /\ is_char "_" c = false.
Proof. intros H. repeat split; bool_arith. Qed.

Lemma isspace_int_isspace (c : ascii) : isspace_int c = true -> isspace c = true.
Proof. intros H. bool_arith. Qed.

Lemma isspace_int_not_digit (c : ascii) :
  isspace_int c = true -> isdigit c = false /\ is_char "_" c = false.
Proof. intros H. split; bool_arith. Qed.

Lemma digit_value_range (c : ascii) :
  isdigit c = true -> (0 <= digit_value c <= 9)%Z.
Proof. intros H. bool_arith. Qed.

(** ** Slicing *)

Lemma length_drop (n : nat) (s : string) :
  String.length (drop n s) = (String.length s - n)%nat.
Proof.
  revert s. induction n as [|n IH]; intros [|c s]; simpl; auto.
Qed.

Lemma length_take (n : nat) (s : string) :
  String.length (take n s) = Nat.min n (String.length s).
Proof.
  revert s. induction n as [|n IH]; intros [|c s]; simpl; auto.
Qed.

Lemma py_slice_length (a b : nat) (s : string) :
  String.length (py_slice a b s)
  = (Nat.min b (String.length s) - Nat.min a (String.length s))%nat.
Proof.
  unfold py_slice. rewrite length_take, length_drop. lia.
Qed.

Lemma get_drop (n i : nat) (s : string) :
  String.get i (drop n s) = String.get (n + i) s.
Proof.
  revert s. induction n as [|n IH]; intros [|c s]; simpl; auto.
Qed.

Lemma get_take (n i : nat) (s : string) :
  String.get i (take n s) = if (i <? n)%nat then String.get i s else None.
Proof.
  revert i s. induction n as [|n IH]; intros i [|c s]; simpl.
  - destruct i; reflexivity.
  - reflexivity.
  - destruct (i <? S n)%nat; destruct i; reflexivity.
  - destruct i as [|i]; [reflexivity|]. rewrite IH. reflexivity.
Qed.

(** A slice holds exactly the characters of the line at the positions of the
    range that exist. *)
Lemma py_slice_get (a b i : nat) (s : string) :
  String.get i (py_slice a b s)
  = if (i <? b - a)%nat then String.get (a + i) s else None.
Proof.
  unfold py_slice. rewrite get_take, get_drop. reflexivity.
Qed.

Lemma py_slice_short (a b : nat) (s : string) :
  (String.length s <= a)%nat -> py_slice a b s = EmptyString.
Proof.
  intros H. pose proof (py_slice_length a b s) as L.
  destruct (py_slice a b s); [reflexivity|]. simpl in L. lia.
Qed.

Lemma py_slice_bound (a b : nat) (s : string) :
  (String.length (py_slice a b s) <= b - a)%nat.
Proof. rewrite py_slice_length. lia. Qed.

(** ** Trimming *)

Lemma append_empty_r (s : string) : s ++ "" = s.
Proof. induction s; simpl; congruence. Qed.

Lemma append_assoc (s t u : string) : (s ++ t) ++ u = s ++ t ++ u.
Proof. induction s; simpl; congruence. Qed.

Lemma length_append (s t : string) :
  String.length (s ++ t) = (String.length s + String.length t)%nat.
Proof. induction s; simpl; congruence. Qed.

Lemma string_forall_append (p : ascii -> bool) (s t : string) :
  string_forall p (s ++ t) = string_forall p s && string_forall p t.
Proof.
  induction s as [|c s IH]; simpl; [reflexivity|].
  rewrite IH. apply andb_assoc.
Qed.

Lemma lstrip_spec (s : string) :
  exists l, s = l ++ lstrip s /\ string_forall isspace l = true
            /\ (forall c, first_char (lstrip s) = Some c -> isspace c = false).
Proof.
  induction s as [|c s (l & E & A & F)]; simpl.
  - exists EmptyString. repeat split. discriminate.
  - destruct (isspace c) eqn:Hc.
    + exists (String c l). simpl. rewrite Hc, A. repeat split; [congruence|assumption].
    + exists EmptyString. simpl. repeat split. intros c' [= <-]. assumption.
Qed.

Lemma rstrip_spec (s : string) :
  exists r, s = rstrip s ++ r /\ string_forall isspace r = true
            /\ (forall c, last_char (rstrip s) = Some c -> isspace c = false).
Proof.
  induction s as [|c s (r & E & A & F)]; simpl.
  - exists EmptyString. repeat split. discriminate.
  - destruct (rstrip s) as [|c' t] eqn:R.
    + destruct (isspace c) eqn:Hc.
      * exists (String c r). simpl in *. rewrite Hc, A. repeat split; [congruence|discriminate].
      * exists r. simpl in *. repeat split; [congruence|assumption|].
        intros c0 [= <-]. assumption.
    + exists r. simpl in *. repeat split; [congruence|assumption|exact F].
Qed.

Lemma rstrip_first_char (s : string) (c : ascii) :
  first_char (rstrip s) = Some c -> first_char s = Some c.
Proof.
  destruct s as [|c0 s]; simpl; [discriminate|].
  destruct (rstrip s); [destruct (isspace c0)|]; simpl; congruence.
Qed.

(** [strip] removes a run of white space at each end and leaves a text with
    none at either end. *)
Lemma py_strip_spec (s : string) :
  exists l r, s = l ++ py_strip s ++ r
              /\ string_forall isspace l = true
              /\ string_forall isspace r = true
              /\ trimmed (py_strip s).
Proof.
  unfold py_strip.
  destruct (lstrip_spec s) as (l & El & Al & Fl).
  destruct (rstrip_spec (lstrip s)) as (r & Er & Ar & Fr).
  exists l, r. repeat split; try assumption.
  - rewrite <- Er. exact El.
  - intros c Hc. apply Fl. apply rstrip_first_char. exact Hc.
Qed.

Lemma lstrip_all_space (s : string) :
  string_forall isspace s = true -> lstrip s = EmptyString.
Proof.
  induction s as [|c s IH]; simpl; [reflexivity|].
  intros H. apply andb_true_iff in H as [Hc Hs]. rewrite Hc. auto.
Qed.

Lemma py_strip_all_space (s : string) :
  string_forall isspace s = true -> py_strip s = EmptyString.
Proof.
  intros H. unfold py_strip. rewrite lstrip_all_space by assumption. reflexivity.
Qed.

Lemma py_strip_empty_inv (s : string) :
  py_strip s = EmptyString -> string_forall isspace s = true.
Proof.
  intros H. destruct (py_strip_spec s) as (l & r & E & Al & Ar & _).
  rewrite H in E. simpl in E. rewrite E, string_forall_append, Al, Ar. reflexivity.
Qed.

Lemma py_strip_trimmed (t : string) : trimmed t -> py_strip t = t.
Proof.
  intros [F L]. unfold py_strip.
  assert (E : lstrip t = t).
  { destruct t as [|c t]; simpl; [reflexivity|]. rewrite (F c eq_refl). reflexivity. }
  rewrite E. clear E F.
  induction t as [|c t IH]; simpl; [reflexivity|].
  destruct t as [|c' t].
  - simpl. rewrite (L c eq_refl). reflexivity.
  - rewrite IH by (intros c0 H0; apply L; exact H0). reflexivity.
Qed.

(** ** [int()] accepts the literals of the grammar *)

Lemma skip_space_app (ws t : string) :
  string_forall isspace_int ws = true -> skip_space (ws ++ t) = skip_space t.
Proof.
  induction ws as [|c ws IH]; simpl; [reflexivity|].
  intros H. apply andb_true_iff in H as [Hc Hs]. rewrite Hc. auto.
Qed.

Lemma skip_space_all (ws : string) :
  string_forall isspace_int ws = true -> skip_space ws = EmptyString.
Proof.
  intros H. rewrite <- (append_empty_r ws), skip_space_app by assumption.
  reflexivity.
Qed.

Lemma skip_space_stay (c : ascii) (t : string) :
  isspace_int c = false -> skip_space (String c t) = String c t.
Proof. intros H. simpl. rewrite H. reflexivity. Qed.

Lemma skip_space_length (s : string) :
  (String.length (skip_space s) <= String.length s)%nat.
Proof.
  induction s as [|c s IH]; simpl; [lia|].
  destruct (isspace_int c); simpl; lia.
Qed.

Lemma digits_value_append (a b : string) :
  digits_value (a ++ b)
  = (digits_value a * 10 ^ Z.of_nat (String.length b) + digits_value b)%Z.
Proof.
  induction a as [|c a IH]; simpl digits_value; simpl append.
  - lia.
  - rewrite IH, length_append, Nat2Z.inj_add, Z.pow_add_r by lia. ring.
Qed.

Lemma digits_value_nonneg (s : string) :
  string_forall isdigit s = true -> (0 <= digits_value s)%Z.
Proof.
  induction s as [|c s IH]; simpl; [lia|].
  intros H. apply andb_true_iff in H as [Hc Hs].
  pose proof (digit_value_range c Hc).
  pose proof (Z.pow_nonneg 10 (Z.of_nat (String.length s))).
  specialize (IH Hs). nia.
Qed.

Lemma scan_run (ds : string) :
  digit_run ds ->
  forall t prev acc nd,
    scan_digits (ds ++ t) prev acc nd
    = scan_digits t false
        (acc * 10 ^ Z.of_nat (String.length ds) + digits_value ds)%Z
        (nd + String.length ds)%nat.
Proof.
  intros [Hne Hd]. induction ds as [|c ds IH]; [congruence|].
  intros t prev acc nd. simpl in Hd. apply andb_true_iff in Hd as [Hc Hs].
  simpl append. simpl scan_digits. rewrite Hc.
  destruct ds as [|c' ds'].
  - simpl. change (Z.of_nat 1) with 1%Z. change (Z.of_nat 0) with 0%Z.
    rewrite Z.pow_1_r, Z.pow_0_r. f_equal; [ring | lia].
  - rewrite IH by (assumption || discriminate).
    simpl digits_value. simpl String.length.
    rewrite !Nat2Z.inj_succ, !Z.pow_succ_r by lia.
    f_equal; [ring | lia].
Qed.

Lemma scan_stop (t : string) (acc : Z) (nd : nat) :
  stops_scan t -> scan_digits t false acc nd = Ok (acc, nd, t).
Proof.
  intros H. destruct t as [|c t]; simpl; [reflexivity|].
  destruct (H c eq_refl) as [Hd Hu]. rewrite Hd, Hu. reflexivity.
Qed.

Lemma digit_run_head (ds : string) :
  digit_run ds -> exists c r, ds = String c r /\ isdigit c = true.
Proof.
  intros [Hne Hd]. destruct ds as [|c r]; [congruence|].
  simpl in Hd. apply andb_true_iff in Hd as [Hc _]. eauto.
Qed.

Lemma digit_groups_head (body ds : string) :
  digit_groups body ds -> exists c r, body = String c r /\ isdigit c = true.
Proof.
  intros [ds0 H|ds0 body0 ds' H _]; destruct (digit_run_head _ H) as (c & r & -> & Hc);
    simpl; eauto.
Qed.

Lemma digit_groups_digits (body ds : string) :
  digit_groups body ds -> digit_run ds.
Proof.
  induction 1 as [ds H|ds body ds' [Hne Hd] _ [_ IH]]; [assumption|].
  split.
  - destruct ds; [congruence|discriminate].
  - rewrite string_forall_append, Hd, IH. reflexivity.
Qed.

Lemma scan_groups (body ds : string) :
  digit_groups body ds ->
  forall t prev acc nd,
    stops_scan t ->
    scan_digits (body ++ t) prev acc nd
    = Ok ((acc * 10 ^ Z.of_nat (String.length ds) + digits_value ds)%Z,
          (nd + String.length ds)%nat, t).
Proof.
  induction 1 as [ds H|ds body ds' H G IH]; intros t prev acc nd St.
  - rewrite scan_run by assumption. apply scan_stop. assumption.
  - rewrite !append_assoc, scan_run by assumption.
    simpl append. simpl scan_digits.
    replace (isdigit "_") with false by reflexivity.
    replace (is_char "_" "_") with true by reflexivity.
    rewrite IH by assumption.
    rewrite digits_value_append, !length_append, Nat2Z.inj_add, Z.pow_add_r by lia.
    do 3 f_equal; [ring | lia].
Qed.

Lemma stops_scan_space (ws : string) :
  string_forall isspace_int ws = true -> stops_scan ws.
Proof.
  intros H c Hc. destruct ws as [|c' ws]; [discriminate|].
  injection Hc as <-. simpl in H. apply andb_true_iff in H as [H _].
  apply isspace_int_not_digit. assumption.
Qed.

(** Every literal of the grammar is read by [int()] as the number it
    denotes. *)
Lemma py_int_literal (s : string) (n : Z) :
  int_literal s n -> py_int s = Ok n.
Proof.
  intros [ws1 sg k body ds ws2 W1 Sg G Len W2].
  destruct (digit_groups_head _ _ G) as (c & r & -> & Hc).
  destruct (isdigit_not_sign c Hc) as (Hp & Hm & Hu).
  pose proof (isdigit_not_space c Hc) as Hs.
  destruct (digit_groups_digits _ _ G) as [Hne _].
  assert (Hnd : String.length ds <> 0%nat) by (destruct ds; [congruence|discriminate]).
  assert (Hbody : forall neg,
    read_digits neg (String c (r ++ ws2))
    = Ok (if neg then (- digits_value ds)%Z else digits_value ds)).
  { intros neg. unfold read_digits. simpl starts_with_underscore. rewrite Hu.
    change (String c (r ++ ws2)) with (String c r ++ ws2).
    rewrite (scan_groups _ _ G) by (apply stops_scan_space; assumption).
    simpl bind. simpl Nat.add.
    rewrite (proj2 (Nat.ltb_ge _ _) Len).
    rewrite (proj2 (Nat.eqb_neq _ _) Hnd).
    rewrite skip_space_all by assumption.
    simpl. destruct neg; reflexivity. }
  unfold py_int. rewrite skip_space_app by assumption.
  destruct Sg; simpl append.
  - rewrite skip_space_stay by assumption. simpl read_sign. rewrite Hp, Hm.
    rewrite (Hbody false). f_equal; lia.
  - rewrite skip_space_stay by reflexivity.
    change (read_sign (String "+" (String c (r ++ ws2))))
      with (false, String c (r ++ ws2)).
    cbv beta iota. rewrite (Hbody false). f_equal; lia.
  - rewrite skip_space_stay by reflexivity.
    change (read_sign (String "-" (String c (r ++ ws2))))
      with (true, String c (r ++ ws2)).
    cbv beta iota. rewrite (Hbody true). f_equal; lia.
Qed.

(** A non-empty run of digits is read as its value. *)
Lemma py_int_digits (ds : string) :
  digit_run ds -> (String.length ds <= max_str_digits)%nat ->
  py_int ds = Ok (digits_value ds).
Proof.
  intros H L.
  assert (I : int_literal ("" ++ "" ++ ds ++ "") (1 * digits_value ds)%Z).
  { constructor; try reflexivity; try assumption; constructor; assumption. }
  simpl in I. rewrite append_empty_r in I.
  replace (digits_value ds) with (1 * digits_value ds)%Z at 2 by lia.
  apply py_int_literal.
  destruct (digits_value ds); exact I.
Qed.

(** ** The size of what [int()] reads *)

Lemma scan_bound (s : string) :
  forall prev acc nd acc' nd' rest,
    scan_digits s prev acc nd = Ok (acc', nd', rest) ->
    (0 <= acc)%Z ->
    (0 <= acc' /\ acc' + 1 <= (acc + 1) * 10 ^ Z.of_nat (String.length s))%Z.
Proof.
  induction s as [|c s IH]; intros prev acc nd acc' nd' rest H Hacc.
  - simpl in H. destruct prev; [discriminate|]. injection H as <- _ _.
    change (Z.of_nat (String.length "")) with 0%Z. rewrite Z.pow_0_r. lia.
  - simpl String.length. rewrite Nat2Z.inj_succ, Z.pow_succ_r by lia.
    pose proof (Z.pow_pos_nonneg 10 (Z.of_nat (String.length s))) as P.
    simpl in H. destruct (isdigit c) eqn:Hc.
    + pose proof (digit_value_range c Hc) as R.
      apply IH in H; [|lia]. nia.
    + destruct (is_char "_" c).
      * destruct prev; [discriminate|]. apply IH in H; [|lia]. nia.
      * destruct prev; [discriminate|]. injection H as <- _ _. nia.
Qed.

Lemma read_sign_length (s : string) :
  (String.length (snd (read_sign s)) <= String.length s)%nat.
Proof.
  destruct s as [|c s]; simpl; [lia|].
  destruct (is_char "+" c); [simpl; lia|].
  destruct (is_char "-" c); simpl; lia.
Qed.

Lemma read_digits_bound (neg : bool) (body : string) (n : Z) :
  read_digits neg body = Ok n ->
  (Z.abs n < 10 ^ Z.of_nat (String.length body))%Z.
Proof.
  unfold read_digits. destruct (starts_with_underscore body); [discriminate|].
  destruct (scan_digits body false 0 0) as [[[acc nd] rest]|e] eqn:S; [|discriminate].
  simpl bind. destruct (max_str_digits <? nd)%nat; [discriminate|].
  destruct (nd =? 0)%nat; [discriminate|].
  destruct (skip_space rest); [|discriminate].
  intros [= <-]. apply scan_bound in S; [|lia].
  destruct neg; lia.
Qed.

(** A text of [k] characters is read as a number of absolute value below
    [10 ^ k]. *)
Lemma py_int_bound (s : string) (n : Z) :
  py_int s = Ok n -> (Z.abs n < 10 ^ Z.of_nat (String.length s))%Z.
Proof.
  unfold py_int. intros H.
  pose proof (read_sign_length (skip_space s)) as L1.
  pose proof (skip_space_length s) as L2.
  destruct (read_sign (skip_space s)) as [neg body]. simpl in L1.
  apply read_digits_bound in H.
  assert (10 ^ Z.of_nat (String.length body) <= 10 ^ Z.of_nat (String.length s))%Z
    by (apply Z.pow_le_mono_r; lia).
  lia.
Qed.

Lemma py_int_slice_bound (a b : nat) (line : string) (n : Z) :
  (b - a <= 16)%nat ->
  py_int (py_slice a b line) = Ok n -> (Z.abs n < 2 ^ 64)%Z.
Proof.
  intros Hw H. apply py_int_bound in H.
  pose proof (py_slice_bound a b line) as L.
  assert (10 ^ Z.of_nat (String.length (py_slice a b line)) <= 10 ^ 16)%Z
    by (apply Z.pow_le_mono_r; lia).
  assert (10 ^ 16 < 2 ^ 64)%Z by reflexivity.
  lia.
Qed.

(** ** Conversion of small integers to floats never overflows *)
Lemma Zdigits2_pos_log2 (p : positive) :
  Z.pos (digits2_pos p) = (Z.log2 (Z.pos p) + 1)%Z.
Proof.
  assert (S : forall q, digits2_pos q = Pos.size q)
    by (induction q; simpl; congruence).
  rewrite S. destruct p; simpl; lia.
Qed.

Lemma Zdigits2_nonneg (m : Z) : (0 <= Zdigits2 m)%Z.
Proof. destruct m; simpl; lia. Qed.

Lemma Zdigits2_mono (a b : Z) : (0 <= a <= b)%Z -> (Zdigits2 a <= Zdigits2 b)%Z.
Proof.
  intros [Ha Hab]. destruct a as [|p|p]; [apply Zdigits2_nonneg| |lia].
  destruct b as [|q|q]; try lia. simpl.
  rewrite !Zdigits2_pos_log2.
  pose proof (Z.log2_le_mono (Z.pos p) (Z.pos q) Hab). lia.
Qed.

Lemma Zdigits2_succ (m : Z) : (0 <= m)%Z -> (Zdigits2 (m + 1) <= Zdigits2 m + 1)%Z.
Proof.
  intros H. destruct m as [|p|p]; [simpl; lia| |lia].
  transitivity (Zdigits2 (2 * Z.pos p)); [apply Zdigits2_mono; lia|].
  simpl. lia.
Qed.

Lemma shr_1_bound (mrs : shr_record) :
  (0 <= shr_m mrs)%Z -> (0 <= shr_m (shr_1 mrs) <= shr_m mrs)%Z.
Proof.
  destruct mrs as [m r s]. simpl. intros H.
  destruct m as [|[p|p|]|[p|p|]]; simpl; lia.
Qed.

Lemma iter_shr_1_bound (p : positive) :
  forall mrs, (0 <= shr_m mrs)%Z ->
    (0 <= shr_m (iter_pos shr_1 p mrs) <= shr_m mrs)%Z.
Proof.
  induction p as [p IH|p IH|]; intros mrs H; simpl.
  - pose proof (shr_1_bound mrs H) as B1.
    pose proof (IH (shr_1 mrs) (proj1 B1)) as B2.
    pose proof (IH _ (proj1 B2)) as B3. lia.
  - pose proof (IH mrs H) as B2.
    pose proof (IH _ (proj1 B2)) as B3. lia.
  - apply shr_1_bound. assumption.
Qed.

Lemma shr_fexp_bound (m e : Z) (l : location) :
  (0 <= m)%Z ->
  let '(mrs, e') := shr_fexp prec emax m e l in
  (0 <= shr_m mrs <= m)%Z
  /\ (e' = e \/ e' = fexp prec emax (Zdigits2 m + e))%Z.
Proof.
  intros H. unfold shr_fexp, shr.
  assert (M : shr_m (shr_record_of_loc m l) = m)
    by (destruct l as [|[| |]]; reflexivity).
  destruct (fexp prec emax (Zdigits2 m + e) - e)%Z as [|p|p] eqn:E.
  - rewrite M. split; [lia|auto].
  - split.
    + pose proof (iter_shr_1_bound p (shr_record_of_loc m l)) as B.
      rewrite M in B. apply B. assumption.
    + right. lia.
  - rewrite M. split; [lia|auto].
Qed.

Lemma round_nearest_even_bound (m : Z) (l : location) :
  (m <= round_nearest_even m l <= m + 1)%Z.
Proof.
  destruct l as [|[| |]]; simpl; try lia. destruct (Z.even m); lia.
Qed.

Lemma binary_round_aux_finite (sx : bool) (mx ex : Z) (lx : location) :
  (0 <= mx)%Z -> (Zdigits2 mx <= 64)%Z -> (ex <= 0)%Z ->
  forall s, binary_round_aux prec emax sx mx ex lx <> S754_infinity s.
Proof.
  intros Hm Hd He s. unfold binary_round_aux.
  pose proof (shr_fexp_bound mx ex lx Hm) as B1.
  destruct (shr_fexp prec emax mx ex lx) as [mrs' e'].
  destruct B1 as [Bm Be].
  set (m1 := round_nearest_even (shr_m mrs') (loc_of_shr_record mrs')).
  pose proof (round_nearest_even_bound (shr_m mrs') (loc_of_shr_record mrs')) as R.
  fold m1 in R.
  assert (Hm1 : (0 <= m1)%Z) by lia.
  pose proof (shr_fexp_bound m1 e' loc_Exact Hm1) as B2.
  destruct (shr_fexp prec emax m1 e' loc_Exact) as [mrs'' e''].
  destruct B2 as [Bm2 Be2].
  assert (D1 : (Zdigits2 m1 <= 65)%Z).
  { transitivity (Zdigits2 (mx + 1)); [apply Zdigits2_mono; lia|].
    pose proof (Zdigits2_succ mx Hm). lia. }
  pose proof (Zdigits2_nonneg m1) as N1.
  pose proof (Zdigits2_nonneg mx) as N0.
  assert (E2 : (e'' <= 971)%Z).
  { unfold fexp, emin, prec, emax in *. lia. }
  destruct (shr_m mrs''); try discriminate.
  replace (e'' <=? emax - prec)%Z with true; [discriminate|].
  symmetry. apply Z.leb_le. unfold emax, prec. lia.
Qed.

Lemma digits2_pos_iter (d m : positive) :
  digits2_pos (Pos.iter xO m d) = (digits2_pos m + d)%positive.
Proof.
  induction d as [|d IH] using Pos.peano_ind.
  - simpl. lia.
  - rewrite Pos.iter_succ. simpl. rewrite IH. lia.
Qed.

Lemma binary_normalize_finite (n : Z) :
  (Z.abs n < 2 ^ 64)%Z ->
  forall s, binary_normalize prec emax n 0 false <> S754_infinity s.
Proof.
  intros H s.
  assert (R : forall sx m, (Z.pos m < 2 ^ 64)%Z ->
            binary_round prec emax sx m 0 <> S754_infinity s).
  { intros sx m Hm. unfold binary_round.
    assert (Dm : (Z.pos (digits2_pos m) <= 64)%Z).
    { rewrite Zdigits2_pos_log2.
      assert (Z.log2 (Z.pos m) < 64)%Z by (apply Z.log2_lt_pow2; lia). lia. }
    unfold shl_align.
    destruct (fexp prec emax (Z.pos (digits2_pos m) + 0) - 0)%Z as [|d|d] eqn:E.
    - apply binary_round_aux_finite; simpl; lia.
    - apply binary_round_aux_finite; simpl; lia.
    - apply binary_round_aux_finite; simpl Zdigits2.
      + lia.
      + rewrite digits2_pos_iter. unfold fexp, emin, prec, emax in E. lia.
      + unfold fexp, emin, prec, emax in *. lia. }
  destruct n as [|m|m]; simpl; [discriminate| |]; apply R; lia.
Qed.

Lemma float_of_int_small (n : Z) :
  (Z.abs n < 2 ^ 64)%Z ->
  float_of_int n = Ok (binary_normalize prec emax n 0 false).
Proof.
  intros H. unfold float_of_int.
  pose proof (binary_normalize_finite n H) as F.
  destruct (binary_normalize prec emax n 0 false); try reflexivity.
  exfalso. eapply F. reflexivity.
Qed.

(** ** The guarded conversions never raise *)

Lemma format_date_ok (s : string) : format_date s = Ok (date_text s).
Proof.
  unfold format_date, date_text.
  destruct (strptime s) as [dt|e]; simpl; [reflexivity|].
  destruct e; reflexivity.
Qed.

Lemma int_or_zero_ok (s : string) : int_or_zero s = Ok (integer_value s).
Proof.
  unfold int_or_zero, integer_value. destruct (py_int s); reflexivity.
Qed.

Lemma int_truediv_float_small (n : Z) :
  (Z.abs n < 2 ^ 64)%Z -> int_truediv_float n float_100 = Ok (div100 n).
Proof.
  intros H. unfold int_truediv_float. rewrite float_of_int_small by assumption.
  reflexivity.
Qed.

Lemma convert_price_raises (s : string) (e : exn) :
  py_int s = Raise e -> convert_price s = Ok None.
Proof. intros H. unfold convert_price. rewrite H. reflexivity. Qed.

Lemma convert_price_reads (s : string) (n : Z) :
  py_int s = Ok n -> (Z.abs n < 2 ^ 64)%Z ->
  convert_price s = Ok (Some (div100 n)).
Proof.
  intros H B. unfold convert_price. rewrite H. simpl bind.
  rewrite int_truediv_float_small by assumption. reflexivity.
Qed.

Lemma convert_price_slice (a b : nat) (line : string) :
  (b - a <= 16)%nat ->
  convert_price (py_slice a b line) = Ok (price_value (py_slice a b line)).
Proof.
  intros W. unfold price_value.
  destruct (py_int (py_slice a b line)) as [n|e] eqn:E.
  - apply convert_price_reads; [assumption|].
    eapply py_int_slice_bound; eassumption.
  - eapply convert_price_raises; eassumption.
Qed.

(** [parse_line] returns, and returns the record [decoded]. *)
Lemma parse_line_decoded (line : string) : parse_line line = Ok (decoded line).
Proof.
  unfold parse_line.
  rewrite format_date_ok.
  rewrite !convert_price_slice by (cbv; repeat constructor).
  rewrite !int_or_zero_ok.
  reflexivity.
Qed.

(** ** Dates *)











(** ** What a successful parse tells about the text *)












(** ** The decoder, field by field *)


Lemma replicate_forall (p : ascii -> bool) (n : nat) (c : ascii) :
  p c = true -> string_forall p (replicate n c) = true.
Proof. intros H. induction n as [|n IH]; simpl; [reflexivity|]. rewrite H, IH. reflexivity. Qed.

Lemma length_replicate (n : nat) (c : ascii) : String.length (replicate n c) = n.
Proof. induction n; simpl; congruence. Qed.

Lemma digit_run_length (a b : nat) (line : string) :
  (b - a <= 16)%nat ->
  (String.length (py_slice a b line) <= max_str_digits)%nat.
Proof.
  intros W. pose proof (py_slice_bound a b line).
  assert (16 <= max_str_digits)%nat by (cbv; repeat constructor). lia.
Qed.


Lemma integer_value_spec (s : string) :
  (String.length s <= 16)%nat ->
  (forall n, py_int s = Ok n -> integer_value s = n)
  /\ (digit_run s -> integer_value s = digits_value s)
  /\ (forall e, py_int s = Raise e ->
        integer_value s = 0%Z /\ convert_price s = Ok None).
Proof.
  intros W. unfold integer_value. repeat split.
  - intros n ->. reflexivity.
  - intros D. rewrite py_int_digits; [reflexivity | assumption |].
    assert (16 <= max_str_digits)%nat by (cbv; repeat constructor). lia.
  - rewrite H. reflexivity.
  - eapply convert_price_raises. eassumption.
Qed.

(** C1.  Decoding is total.  For every line whatsoever (so also for every
    line of two or more characters) [parse_line] returns a record and raises
    nothing.  In that record the text columns are the slices, trimmed where
    the layout says so; the date is the reformatted date or, when it does
    not parse, the raw slice; each price is the scaled number or [None];
    each integer column is the number or 0; the tail is the trimmed rest or
    the empty text.  A slice never fails: it holds the characters of its
    range that the line has, none when the line ends before the range. *)
Theorem parse_line_total (line : string) :
  exists r, parse_line line = Ok r
    /\ Forall (fun '(a, b, f) => f r = py_slice a b line) raw_fields
    /\ Forall (fun '(a, b, f) => f r = py_strip (py_slice a b line))
         trimmed_fields
    /\ match strptime (py_slice 2 10 line) with
       | Ok dt => data_pregao r = strftime dt
       | Raise _ => data_pregao r = py_slice 2 10 line
       end
    /\ Forall (fun '(a, b, f) =>
         match py_int (py_slice a b line) with
         | Ok n => f r = Some (div100 n)
         | Raise _ => f r = None
         end) price_fields
    /\ Forall (fun '(a, b, f) =>
         match py_int (py_slice a b line) with
         | Ok n => f r = n
         | Raise _ => f r = 0%Z
         end) integer_fields
    /\ codigo_papel_registro r
       = (if (190 <? String.length line)%nat
          then py_strip (py_slice_from 190 line) else "")
    /\ (forall a b,
          String.length (py_slice a b line)
          = (Nat.min b (String.length line) - Nat.min a (String.length line))%nat
          /\ (forall i, String.get i (py_slice a b line)
                        = if (i <? b - a)%nat then String.get (a + i) line
                          else None)
          /\ ((String.length line <= a)%nat -> py_slice a b line = "")).
Proof.
  exists (decoded line). split; [apply parse_line_decoded|].
  split; [repeat constructor|].
  split; [repeat constructor|].
  split.
  { simpl. unfold date_text. destruct (strptime (py_slice 2 10 line)); reflexivity. }
  split.
  { repeat constructor; simpl; unfold price_value;
      match goal with |- context [py_int ?s] => destruct (py_int s) end;
      reflexivity. }
  split.
  { repeat constructor; simpl; unfold integer_value;
      match goal with |- context [py_int ?s] => destruct (py_int s) end;
      reflexivity. }
  split; [reflexivity|].
  intros a b. split; [apply py_slice_length|].
  split; [intros i; apply py_slice_get | apply py_slice_short].
Qed.


(** C5.  The three integer columns ([numero_negocios] from [134,141),
    [quantidade_acoes] from [141,157), [fator_ajuste] from [186,190)) decode
    to the integer [int()] reads in the slice, in particular to the number a
    slice of digits denotes, and to 0 when the slice is not an integer;
    the same unreadable text in a price column gives [None] instead. *)
Theorem integer_fields_default (line : string) :
  exists r, parse_line line = Ok r
    /\ Forall (fun '(a, b, f) =>
         let s := py_slice a b line in
         (forall n, py_int s = Ok n -> f r = n)
         /\ (digit_run s -> f r = digits_value s)
         /\ (forall e, py_int s = Raise e ->
               f r = 0%Z /\ convert_price s = Ok None))
         integer_fields.
Proof.
  exists (decoded line). split; [apply parse_line_decoded|].
  repeat apply Forall_cons; try apply Forall_nil; simpl;
    apply integer_value_spec;
    (eapply Nat.le_trans; [apply py_slice_bound | cbv; repeat constructor]).
Qed.

Lemma py_int_length_16 (s : string) (n : Z) :
  (String.length s <= 16)%nat -> py_int s = Ok n -> (Z.abs n < 2 ^ 64)%Z.
Proof.
  intros W H. apply py_int_bound in H.
  assert (10 ^ Z.of_nat (String.length s) <= 10 ^ 16)%Z
    by (apply Z.pow_le_mono_r; lia).
  assert (10 ^ 16 < 2 ^ 64)%Z by reflexivity.
  lia.
Qed.

(** C9.  The line between a number and [None] in a price or volume column is
    what [int()] accepts.  For a slice (at most 16 characters): every
    literal of the grammar of [int()] -- white space around the digits, an
    optional [+] or [-], single underscores between digits -- decodes to
    the float [n / 100.0] of the number [n] it denotes, and the value is
    [None] exactly when [int()] raises. *)
Theorem price_boundary_is_int (s : string) :
  (String.length s <= 16)%nat ->
  (forall n, int_literal s n -> convert_price s = Ok (Some (div100 n)))
  /\ (forall n, py_int s = Ok n -> convert_price s = Ok (Some (div100 n)))
  /\ (convert_price s = Ok None <-> exists e, py_int s = Raise e).
Proof.
  intros W.
  assert (R : forall n, py_int s = Ok n -> convert_price s = Ok (Some (div100 n))).
  { intros n H. apply convert_price_reads; [assumption|].
    eapply py_int_length_16; eassumption. }
  split; [|split].
  - intros n L. apply R. apply py_int_literal. assumption.
  - exact R.
  - split.
    + intros H. destruct (py_int s) as [n|e] eqn:E; [|eauto].
      rewrite (R n eq_refl) in H. discriminate.
    + intros [e H]. eapply convert_price_raises. eassumption.
Qed.

(** The slice of 13 characters "         -123" decodes to the float nearest
    to -1.23, not to [None]; "1_000" and " +42 " decode as well. *)
Lemma price_boundary_is_int_witness :
  String.length "         -123" = 13%nat
  /\ int_literal "         -123" (-123)
  /\ convert_price "         -123" = Ok (Some (div100 (-123)))
  /\ div100 (-123) = S754_finite true 5539427541665710 (-52)
  /\ (Qabs (float_value (div100 (-123)) - (-123 # 100)) <= 1 # 2 ^ 53)%Q
  /\ convert_price "1_000" = Ok (Some (div100 1000))
  /\ convert_price " +42 " = Ok (Some (div100 42)).
Proof.
  assert (L : int_literal "         -123" (-123)).
  { apply (int_literal_intro "         " "-" (-1) "123" "123" "").
    - reflexivity.
    - exact sign_minus.
    - apply groups_one. split; [discriminate | reflexivity].
    - apply Nat.leb_le. reflexivity.
    - reflexivity. }
  split; [reflexivity|]. split; [exact L|].
  split.
  { apply (proj1 (price_boundary_is_int "         -123"
                    (proj1 (Nat.leb_le 13 16) eq_refl)) (-123)%Z L). }
  split; [reflexivity|].
  split; [apply Qle_bool_imp_le; vm_compute; reflexivity|].
  split.
  - apply (proj1 (proj2 (price_boundary_is_int "1_000"
                           (proj1 (Nat.leb_le 5 16) eq_refl))) 1000%Z eq_refl).
  - apply (proj1 (proj2 (price_boundary_is_int " +42 "
                           (proj1 (Nat.leb_le 5 16) eq_refl))) 42%Z eq_refl).
Defined.








(** ** The tail column *)

Lemma length_py_strip (s : string) :
  (String.length (py_strip s) <= String.length s)%nat.
Proof.
  destruct (py_strip_spec s) as (l & r & E & _).
  rewrite E at 2. rewrite !length_append. lia.
Qed.

(** C6, as amended.  [codigo_papel_registro] is the empty text when the
    line has 190 characters or fewer (so for a line of 150), and the trimmed
    text from offset 190 on when it has more; it is never longer than what
    the line has beyond 190.  A line whose text from offset 190 on is
    BRVALE3ACNO is 201 characters long and yields BRVALE3ACNO, also when an
    end of line follows the text. *)
Theorem tail_populated_beyond_190 (line : string) :
  exists r, parse_line line = Ok r
    /\ ((String.length line <= 190)%nat -> codigo_papel_registro r = "")
    /\ ((190 < String.length line)%nat ->
        codigo_papel_registro r = py_strip (py_slice_from 190 line))
    /\ (codigo_papel_registro r <> "" -> (190 < String.length line)%nat)
    /\ (String.length line = 150%nat -> codigo_papel_registro r = "")
    /\ (String.length (codigo_papel_registro r) <= String.length line - 190)%nat
    /\ (py_slice_from 190 line = "BRVALE3ACNO" ->
        String.length line = 201%nat /\ codigo_papel_registro r = "BRVALE3ACNO")
    /\ (py_slice_from 190 line = "BRVALE3ACNO" ++ newline ->
        String.length line = 202%nat /\ codigo_papel_registro r = "BRVALE3ACNO").
Proof.
  exists (decoded line). split; [apply parse_line_decoded|].
  change (codigo_papel_registro (decoded line)) with (tail_text line).
  unfold tail_text.
  assert (T : forall t, py_slice_from 190 line = t -> t <> "" ->
              String.length line = (190 + String.length t)%nat).
  { intros t E N. pose proof (length_drop 190 line) as L.
    unfold py_slice_from in E. rewrite E in L.
    destruct t; [congruence|]. simpl in L |- *. lia. }
  destruct (Nat.ltb_spec 190 (String.length line)) as [G|G].
  - split; [lia|]. split; [reflexivity|]. split; [intros _; exact G|].
    split; [lia|]. split.
    { pose proof (length_py_strip (py_slice_from 190 line)) as L.
      unfold py_slice_from in L at 2. rewrite length_drop in L. exact L. }
    split; intros E; (split; [rewrite (T _ E); [reflexivity|discriminate]|]);
      rewrite E; reflexivity.
  - split; [reflexivity|]. split; [lia|]. split; [congruence|].
    split; [reflexivity|]. split; [simpl; lia|].
    split; intros E; exfalso;
      (rewrite (T _ E) in G; [simpl in G; lia | discriminate]).
Qed.

(** C6 as stated fails on its own example: a line of 195 characters that
    ends with BRVALE3ACNO has only the last five of them, 3ACNO, from offset
    190 on, and that is what [codigo_papel_registro] holds. *)
Lemma tail_of_195_is_five_characters :
  String.length line_195 = 195%nat
  /\ ends_with line_195 "BRVALE3ACNO"
  /\ exists r, parse_line line_195 = Ok r
       /\ codigo_papel_registro r = "3ACNO"
       /\ codigo_papel_registro r <> "BRVALE3ACNO".
Proof.
  split; [reflexivity|]. split.
  { exists ("01" ++ replicate 182 "0"). reflexivity. }
  eexists. split; [vm_compute; reflexivity|].
  split; [reflexivity | simpl; discriminate].
Qed.

(** C10.  When the line is longer than 190 characters and everything from
    offset 190 on is white space, [codigo_papel_registro] is the empty text,
    although the line is long enough for the column to be filled. *)
Theorem tail_all_space_is_empty (line : string) :
  (190 < String.length line)%nat ->
  string_forall isspace (py_slice_from 190 line) = true ->
  exists r, parse_line line = Ok r /\ codigo_papel_registro r = "".
Proof.
  intros L W. exists (decoded line). split; [apply parse_line_decoded|].
  change (codigo_papel_registro (decoded line)) with (tail_text line).
  unfold tail_text. rewrite (proj2 (Nat.ltb_lt _ _) L).
  apply py_strip_all_space. exact W.
Qed.

(** A record of 190 characters followed by its end of line only. *)
Lemma tail_all_space_is_empty_witness :
  String.length (record_190 ++ newline) = 191%nat
  /\ py_slice_from 190 (record_190 ++ newline) = newline
  /\ exists r, parse_line (record_190 ++ newline) = Ok r
       /\ codigo_papel_registro r = "".
Proof.
  split; [reflexivity|]. split; [reflexivity|].
  apply (tail_all_space_is_empty (record_190 ++ newline)).
  - apply Nat.ltb_lt. reflexivity.
  - reflexivity.
Defined.

(** ** The extraction loop *)

Section LoopFacts.

Variable decode : string -> result Registro.
Variable a : Args.

Lemma line_body_anomalous (line : string) (st : State) :
  anomalous line -> line_body decode a line st = (Continue, st).
Proof.
  intros [H|H]; unfold line_body.
  - rewrite (proj2 (Nat.ltb_lt _ _) H). reflexivity.
  - destruct (String.length line <? 2)%nat; [reflexivity|].
    rewrite (proj2 (String.eqb_neq _ _) H). reflexivity.
Qed.

Lemma for_lines_anomalous (infile : list string) (st : State) :
  Forall anomalous infile -> for_lines decode a infile st = (Continue, st).
Proof.
  induction 1 as [|line rest H _ IH]; simpl; [reflexivity|].
  rewrite line_body_anomalous by assumption. exact IH.
Qed.

(** Sources that hold anomalous lines only leave the sink and the counter
    as they were. *)
Lemma for_files_anomalous (arquivos : list (list string)) (st : State) :
  Forall (Forall anomalous) arquivos ->
  snd (for_files decode a arquivos st) = st.
Proof.
  induction 1 as [|infile rest H _ IH]; simpl; [reflexivity|].
  unfold file_body. rewrite for_lines_anomalous by assumption.
  destruct (limit_reached a st); [reflexivity | exact IH].
Qed.

(** What one pass through the body does to the state: nothing, or one
    [writerow]. *)
Lemma line_body_cases (line : string) (st : State) :
  line_body decode a line st = (Continue, st)
  \/ (exists e, line_body decode a line st = (Abort e, st))
  \/ (exists r, decode line = Ok r
        /\ line_body decode a line st
           = (if limit_reached a (writerow r st) then Break else Continue,
              writerow r st)).
Proof.
  unfold line_body.
  destruct (String.length line <? 2)%nat; [auto|].
  destruct (negb (py_slice 0 2 line =? "01")); [auto|].
  destruct (decode line) as [r|e]; [|eauto].
  destruct (negb (mem (ativo r) (ativos a))); [auto|].
  right. right. exists r. split; [reflexivity|].
  destruct (limit_reached a (writerow r st)); reflexivity.
Qed.

Lemma line_body_counted (line : string) (st st' : State) (fl : flow) :
  line_body decode a line st = (fl, st') -> counted st -> counted st'.
Proof.
  intros H C.
  destruct (line_body_cases line st) as [E|[[e E]|(r & _ & E)]];
    rewrite E in H; injection H as _ <-; try assumption.
  unfold counted in *. simpl. rewrite length_app, Nat2Z.inj_add. simpl. lia.
Qed.

Lemma for_lines_counted (infile : list string) :
  forall st st' fl,
    for_lines decode a infile st = (fl, st') -> counted st -> counted st'.
Proof.
  induction infile as [|line rest IH]; simpl; intros st st' fl H C.
  - injection H as _ <-. assumption.
  - destruct (line_body decode a line st) as [fl1 st1] eqn:B.
    pose proof (line_body_counted _ _ _ _ B C) as C1.
    destruct fl1; [eapply IH; eassumption| |]; injection H as _ <-; assumption.
Qed.

Lemma for_files_counted (arquivos : list (list string)) :
  forall st st' fl,
    for_files decode a arquivos st = (fl, st') -> counted st -> counted st'.
Proof.
  induction arquivos as [|infile rest IH]; simpl; intros st st' fl H C.
  - injection H as _ <-. assumption.
  - unfold file_body in H.
    destruct (for_lines decode a infile st) as [fl1 st1] eqn:B.
    pose proof (for_lines_counted _ _ _ _ B C) as C1.
    destruct fl1; try (destruct (limit_reached a st1));
      try (injection H as _ <-; assumption);
      eapply IH; eassumption.
Qed.

Variable l : Z.
Hypothesis limit_set : limit a = Some l.

Lemma limit_reached_iff (st : State) :
  limit_reached a st = true <-> (l <= linhas_processadas st)%Z.
Proof. unfold limit_reached. rewrite limit_set. apply Z.leb_le. Qed.

Lemma line_body_limit (line : string) (st st' : State) (fl : flow) :
  line_body decode a line st = (fl, st') ->
  (linhas_processadas st < l)%Z ->
  (linhas_processadas st' <= l)%Z
  /\ (fl = Continue -> (linhas_processadas st' < l)%Z).
Proof.
  intros H C.
  destruct (line_body_cases line st) as [E|[[e E]|(r & _ & E)]];
    rewrite E in H; injection H as <- <-.
  - split; [lia | intros _; assumption].
  - split; [lia | discriminate].
  - destruct (limit_reached a (writerow r st)) eqn:R.
    + simpl. split; [lia | discriminate].
    + assert (~ (l <= linhas_processadas (writerow r st))%Z) as N
        by (rewrite <- limit_reached_iff; congruence).
      split; [lia | intros _; lia].
Qed.

Lemma for_lines_limit (infile : list string) :
  forall st st' fl,
    for_lines decode a infile st = (fl, st') ->
    (linhas_processadas st < l)%Z ->
    (linhas_processadas st' <= l)%Z
    /\ (fl = Continue -> (linhas_processadas st' < l)%Z).
Proof.
  induction infile as [|line rest IH]; simpl; intros st st' fl H C.
  - injection H as <- <-. split; [lia | intros _; assumption].
  - destruct (line_body decode a line st) as [fl1 st1] eqn:B.
    destruct (line_body_limit _ _ _ _ B C) as [L1 L2].
    destruct fl1.
    + eapply IH; [eassumption | auto].
    + injection H as <- <-. split; [assumption | discriminate].
    + injection H as <- <-. split; [assumption | discriminate].
Qed.

Lemma for_files_limit (arquivos : list (list string)) :
  forall st st' fl,
    for_files decode a arquivos st = (fl, st') ->
    (linhas_processadas st < l)%Z ->
    (linhas_processadas st' <= l)%Z.
Proof.
  induction arquivos as [|infile rest IH]; simpl; intros st st' fl H C.
  - injection H as _ <-. lia.
  - unfold file_body in H.
    destruct (for_lines decode a infile st) as [fl1 st1] eqn:B.
    destruct (for_lines_limit _ _ _ _ B C) as [L1 L2].
    destruct fl1.
    + destruct (limit_reached a st1) eqn:R.
      * injection H as _ <-. assumption.
      * eapply IH; [eassumption | auto].
    + destruct (limit_reached a st1) eqn:R.
      * injection H as _ <-. assumption.
      * assert (~ (l <= linhas_processadas st1)%Z) as N
          by (rewrite <- limit_reached_iff; congruence).
        eapply IH; [eassumption | lia].
    + injection H as _ <-. assumption.
Qed.

End LoopFacts.

(** With a limit of at least one, the run writes no more rows than the
    limit, whatever the sources hold. *)
Lemma limit_respected (a : Args) (l : Z) (arquivos : list (list string)) :
  limit a = Some l -> (1 <= l)%Z ->
  (Z.of_nat (List.length (sink (snd (extract a arquivos)))) <= l)%Z
  /\ (linhas_processadas (snd (extract a arquivos)) <= l)%Z.
Proof.
  intros H L. unfold extract.
  destruct (for_files parse_line a arquivos initial_state) as [fl st] eqn:E.
  simpl.
  pose proof (for_files_counted parse_line a arquivos _ _ _ E eq_refl) as C.
  pose proof (for_files_limit parse_line a l H arquivos _ _ _ E) as B.
  unfold counted in C. simpl in B. rewrite C. split; apply B; lia.
Qed.

(** After a [break] nothing more is read: the lines that follow in the
    source and the sources that follow do not matter. *)
Lemma for_lines_break_stops (decode : string -> result Registro) (a : Args)
  (infile more : list string) :
  forall st st',
    for_lines decode a infile st = (Break, st') ->
    for_lines decode a (infile ++ more) st = (Break, st').
Proof.
  induction infile as [|line rest IH]; simpl; intros st st' H; [discriminate|].
  destruct (line_body decode a line st) as [[| |e] st1]; auto.
Qed.

Lemma for_files_break_stops (decode : string -> result Registro) (a : Args)
  (arquivos more : list (list string)) :
  forall st st',
    for_files decode a arquivos st = (Break, st') ->
    for_files decode a (arquivos ++ more) st = (Break, st').
Proof.
  induction arquivos as [|infile rest IH]; simpl; intros st st' H; [discriminate|].
  destruct (file_body decode a infile st) as [[| |e] st1]; auto.
Qed.

(** C7.  A line shorter than two characters, or whose first two characters
    are not "01", is passed over: whatever the decoder is (it is not
    called), the body of the loop leaves the sink and the counter as they
    were and the loop goes on with the next line, as if the line were not
    there. *)
Theorem anomalous_line_skipped (decode : string -> result Registro)
  (a : Args) (line : string) (st : State) :
  anomalous line ->
  line_body decode a line st = (Continue, st)
  /\ (forall rest,
        for_lines decode a (line :: rest) st = for_lines decode a rest st)
  /\ (forall rest more,
        snd (for_files decode a ((line :: rest) :: more) st)
        = snd (for_files decode a (rest :: more) st)).
Proof.
  intros H. pose proof (line_body_anomalous decode a line st H) as E.
  split; [exact E|]. split.
  - intros rest. simpl. rewrite E. reflexivity.
  - intros rest more. simpl. unfold file_body. simpl. rewrite E. reflexivity.
Qed.

(** The empty line, a line of one character and a header line, met by a
    loop whose decoder would raise if it were called. *)
Lemma anomalous_line_skipped_witness :
  let a := {| ativos := ["VALE3"]; limit := None |} in
  let raising := fun _ : string => @Raise Registro ValueError in
  line_body raising a "" initial_state = (Continue, initial_state)
  /\ line_body raising a "0" initial_state = (Continue, initial_state)
  /\ line_body raising a "00COTAHIST.2024" initial_state
     = (Continue, initial_state)
  /\ extract a [[""; "00COTAHIST.2024"; line_vale3]]
     = extract a [[line_vale3]].
Proof.
  cbv zeta. split; [|split; [|split]].
  - apply (anomalous_line_skipped _ _ "" initial_state).
    left. apply Nat.ltb_lt. reflexivity.
  - apply (anomalous_line_skipped _ _ "0" initial_state).
    left. apply Nat.ltb_lt. reflexivity.
  - apply (anomalous_line_skipped _ _ "00COTAHIST.2024" initial_state).
    right. apply String.eqb_neq. reflexivity.
  - reflexivity.
Defined.

(** C2, at the limit 0.  With [--limit 0] and a source that holds two rows
    of a wanted ticker, the run stops at the first test of the limit, which
    comes after the first row is written: one row is in the sink and the
    counter is 1, more than the limit. *)
Theorem limit_zero_writes_one :
  exists st,
    extract {| ativos := ["VALE3"]; limit := Some 0%Z |}
      [[line_vale3; line_vale3]] = (Break, st)
    /\ List.length (sink st) = 1%nat
    /\ linhas_processadas st = 1%Z
    /\ (0 < linhas_processadas st)%Z.
Proof.
  eexists. split; [vm_compute; reflexivity|].
  split; [reflexivity|]. split; reflexivity.
Qed.



(** ** Evaluations *)

Example py_int_examples :
  py_int "0000001050" = Ok 1050%Z
  /\ py_int "         -123" = Ok (-123)%Z
  /\ py_int "1_000" = Ok 1000%Z
  /\ py_int "1__0" = Raise ValueError
  /\ py_int "_1" = Raise ValueError
  /\ py_int "1_" = Raise ValueError
  /\ py_int "+ 1" = Raise ValueError
  /\ py_int "" = Raise ValueError
  /\ py_int "   " = Raise ValueError
  /\ py_int "12.5" = Raise ValueError
  /\ py_int "-0" = Ok 0%Z.
Proof. repeat split; reflexivity. Qed.

Example strptime_examples :
  strptime "20240102" = Ok {| year := 2024; month := 1; day := 2 |}
  /\ strptime "2024111" = Ok {| year := 2024; month := 11; day := 1 |}
  /\ strptime "202411" = Ok {| year := 2024; month := 1; day := 1 |}
  /\ strptime "202401 1" = Ok {| year := 2024; month := 1; day := 1 |}
  /\ strptime "20240229" = Ok {| year := 2024; month := 2; day := 29 |}
  /\ strptime "20230229" = Raise ValueError
  /\ strptime "20241301" = Raise ValueError
  /\ strptime "20240100" = Raise ValueError
  /\ strptime "00000101" = Raise ValueError
  /\ strptime "2024 1 1" = Raise ValueError
  /\ strptime "2024AB01" = Raise ValueError
  /\ strptime "" = Raise ValueError.
Proof. repeat split; reflexivity. Qed.

Example format_date_examples :
  format_date "20240102" = Ok "2024-01-02"
  /\ format_date "19991231" = Ok "1999-12-31"
  /\ format_date "09990102" = Ok "999-01-02"
  /\ format_date "20240230" = Ok "20240230"
  /\ format_date "        " = Ok "        "
  /\ format_date "" = Ok "".
Proof. repeat split; reflexivity. Qed.

Example parse_line_vale3 :
  exists r, parse_line line_vale3 = Ok r
    /\ codigo_registro r = "01"
    /\ data_pregao r = "2024-01-02"
    /\ ativo r = "VALE3"
    /\ nome r = "VALE"
    /\ moeda_cotacao r = "R$"
    /\ preco_abertura r = Some (div100 7700)
    /\ numero_negocios r = 12345%Z
    /\ quantidade_acoes r = 1000000%Z
    /\ fator_ajuste r = 1%Z
    /\ codigo_papel_registro r = "BRVALE3ACNO".
Proof. eexists. split; [vm_compute; reflexivity|]. repeat split; reflexivity. Qed.

(** One row of VALE3 and one of PETR4, VALE3 wanted: one row comes out. *)
Example extract_one_of_two :
  exists st,
    extract {| ativos := ["VALE3"]; limit := None |} [[line_vale3; line_petr4]]
    = (Continue, st)
    /\ map ativo (sink st) = ["VALE3"]
    /\ linhas_processadas st = 1%Z.
Proof. eexists. split; [vm_compute; reflexivity|]. split; reflexivity. Qed.

(** A limit of two over two sources of two wanted rows each: the run breaks
    in the first source. *)
Example extract_limit_two :
  exists st,
    extract {| ativos := ["VALE3"]; limit := Some 2%Z |}
      [[line_vale3; line_vale3]; [line_vale3; line_vale3]] = (Break, st)
    /\ List.length (sink st) = 2%nat.
Proof. eexists. split; [vm_compute; reflexivity|]. reflexivity. Qed.

(** * The rest of the run *)

(** ** The loop as a filter *)

Lemma marker_needs_two (line : string) :
  py_slice 0 2 line = "01" -> (2 <= String.length line)%nat.
Proof.
  intros H. pose proof (py_slice_length 0 2 line) as L. rewrite H in L.
  change (String.length "01") with 2%nat in L. lia.
Qed.

Lemma add_rows_nil (st : State) : add_rows [] st = st.
Proof.
  destruct st as [s c]. unfold add_rows. simpl. rewrite app_nil_r.
  f_equal. change (Z.of_nat 0) with 0%Z. lia.
Qed.

Lemma add_rows_writerow (r : Registro) (rows : list Registro) (st : State) :
  add_rows rows (writerow r st) = add_rows (r :: rows) st.
Proof.
  unfold add_rows, writerow. simpl sink. simpl linhas_processadas.
  rewrite <- app_assoc. simpl app. f_equal.
  simpl List.length. rewrite Nat2Z.inj_succ. lia.
Qed.

Lemma add_rows_app (r1 r2 : list Registro) (st : State) :
  add_rows r2 (add_rows r1 st) = add_rows (r1 ++ r2)%list st.
Proof.
  unfold add_rows. simpl. rewrite <- app_assoc. f_equal.
  rewrite length_app, Nat2Z.inj_add. lia.
Qed.

Lemma wanted_rows_app (a : Args) (l1 l2 : list string) :
  wanted_rows a (l1 ++ l2)%list = (wanted_rows a l1 ++ wanted_rows a l2)%list.
Proof. unfold wanted_rows. rewrite filter_app, map_app. reflexivity. Qed.

(** One pass through the body with [parse_line] as the decoder. *)
Lemma line_body_wanted (a : Args) (line : string) (st : State) :
  line_body parse_line a line st
  = if wanted a line
    then (if limit_reached a (writerow (decoded line) st) then Break
          else Continue, writerow (decoded line) st)
    else (Continue, st).
Proof.
  unfold line_body, wanted. rewrite parse_line_decoded.
  destruct (py_slice 0 2 line =? "01") eqn:M.
  - apply String.eqb_eq in M. pose proof (marker_needs_two line M) as L.
    rewrite (proj2 (Nat.ltb_ge _ _) L). simpl.
    change (ativo (decoded line)) with (py_strip (py_slice 12 24 line)).
    destruct (mem (py_strip (py_slice 12 24 line)) (ativos a)); simpl;
      [|reflexivity].
    destruct (limit_reached a (writerow (decoded line) st)); reflexivity.
  - simpl. destruct (String.length line <? 2)%nat; reflexivity.
Qed.

Section NoLimit.

Variable a : Args.
Hypothesis no_limit : limit a = None.

Lemma limit_reached_none (st : State) : limit_reached a st = false.
Proof. unfold limit_reached. rewrite no_limit. reflexivity. Qed.

Lemma for_lines_no_limit (infile : list string) :
  forall st,
    for_lines parse_line a infile st
    = (Continue, add_rows (wanted_rows a infile) st).
Proof.
  induction infile as [|line rest IH]; intros st.
  - simpl. rewrite add_rows_nil. reflexivity.
  - simpl for_lines. rewrite line_body_wanted. unfold wanted_rows. simpl filter.
    destruct (wanted a line).
    + rewrite limit_reached_none, IH. simpl map.
      rewrite add_rows_writerow. reflexivity.
    + apply IH.
Qed.

Lemma for_files_no_limit (arquivos : list (list string)) :
  forall st,
    for_files parse_line a arquivos st
    = (Continue, add_rows (wanted_rows a (List.concat arquivos)) st).
Proof.
  induction arquivos as [|infile rest IH]; intros st.
  - simpl. rewrite add_rows_nil. reflexivity.
  - simpl for_files. unfold file_body.
    rewrite for_lines_no_limit, limit_reached_none, IH.
    simpl List.concat. rewrite wanted_rows_app, add_rows_app. reflexivity.
Qed.

End NoLimit.

Section WithLimit.

Variable a : Args.
Variable l : Z.
Hypothesis limit_set : limit a = Some l.


Lemma limit_reached_room (st : State) :
  limit_reached a st = (room l st =? 0)%nat.
Proof.
  unfold limit_reached, room. rewrite limit_set.
  destruct (Z.leb_spec l (linhas_processadas st));
    destruct (Nat.eqb_spec (Z.to_nat (l - linhas_processadas st)) 0);
    try reflexivity; lia.
Qed.

Lemma room_writerow (r : Registro) (st : State) :
  room l (writerow r st) = pred (room l st).
Proof. unfold room, writerow. simpl. lia. Qed.

Lemma room_add_rows (rows : list Registro) (st : State) :
  room l (add_rows rows st) = (room l st - List.length rows)%nat.
Proof. unfold room, add_rows. simpl. lia. Qed.

Lemma for_lines_limit_exact (infile : list string) :
  forall st,
    (0 < room l st)%nat ->
    for_lines parse_line a infile st
    = (if (room l st <=? List.length (wanted_rows a infile))%nat then Break
       else Continue,
       add_rows (firstn (room l st) (wanted_rows a infile)) st).
Proof.
  induction infile as [|line rest IH]; intros st R.
  - simpl. rewrite firstn_nil, add_rows_nil.
    destruct (Nat.leb_spec (room l st) 0); [lia | reflexivity].
  - simpl for_lines. rewrite line_body_wanted. unfold wanted_rows. simpl filter.
    destruct (wanted a line); [|apply IH; assumption].
    simpl map. fold (wanted_rows a rest).
    rewrite limit_reached_room, room_writerow.
    destruct (room l st) as [|k] eqn:K; [lia|]. simpl pred.
    destruct (Nat.eqb_spec k 0) as [->|N].
    + simpl. reflexivity.
    + rewrite IH by (rewrite room_writerow, K; simpl; lia).
      rewrite room_writerow, K. simpl pred. simpl firstn.
      rewrite add_rows_writerow. reflexivity.
Qed.

Lemma for_files_limit_exact (arquivos : list (list string)) :
  forall st,
    (0 < room l st)%nat ->
    for_files parse_line a arquivos st
    = (if (room l st <=? List.length (wanted_rows a (List.concat arquivos)))%nat
       then Break else Continue,
       add_rows (firstn (room l st) (wanted_rows a (List.concat arquivos))) st).
Proof.
  induction arquivos as [|infile rest IH]; intros st R.
  - simpl. rewrite firstn_nil, add_rows_nil.
    destruct (Nat.leb_spec (room l st) 0); [lia | reflexivity].
  - simpl for_files. unfold file_body.
    rewrite for_lines_limit_exact by assumption.
    simpl List.concat. rewrite wanted_rows_app, length_app.
    set (w := wanted_rows a infile). set (w' := wanted_rows a (List.concat rest)).
    destruct (Nat.leb_spec (room l st) (List.length w)) as [B|B].
    + rewrite limit_reached_room, room_add_rows, length_firstn.
      replace (room l st - Nat.min (room l st) (List.length w))%nat with 0%nat by lia.
      simpl.
      replace (room l st <=? List.length w + List.length w')%nat with true
        by (symmetry; apply Nat.leb_le; lia).
      rewrite firstn_app.
      replace (room l st - List.length w)%nat with 0%nat by lia.
      simpl firstn. rewrite app_nil_r. reflexivity.
    + rewrite limit_reached_room, room_add_rows, length_firstn.
      replace (room l st - Nat.min (room l st) (List.length w))%nat
        with (room l st - List.length w)%nat by lia.
      destruct (Nat.eqb_spec (room l st - List.length w) 0); [lia|].
      rewrite firstn_all2 by lia.
      rewrite IH by (rewrite room_add_rows; lia).
      rewrite room_add_rows, add_rows_app.
      rewrite firstn_app, (firstn_all2 w) by lia.
      f_equal. fold w'.
      destruct (Nat.leb_spec (room l st - List.length w) (List.length w'));
        destruct (Nat.leb_spec (room l st) (List.length w + List.length w'));
        try reflexivity; lia.
Qed.

(** With nothing left to write, the first source is read up to its first
    wanted line and no other source is opened. *)
Lemma for_files_no_room (infile : list string) (rest : list (list string))
  (st : State) :
  room l st = 0%nat ->
  for_files parse_line a (infile :: rest) st
  = (Break, add_rows (firstn 1 (wanted_rows a infile)) st).
Proof.
  intros R. simpl for_files. unfold file_body.
  assert (L : forall lines s, room l s = 0%nat ->
            exists b : bool, for_lines parse_line a lines s
                       = (if b then Break else Continue,
                          add_rows (firstn 1 (wanted_rows a lines)) s)).
  { induction lines as [|line more IH]; intros s Rs.
    - exists false. simpl. rewrite add_rows_nil. reflexivity.
    - simpl for_lines. rewrite line_body_wanted. unfold wanted_rows. simpl filter.
      destruct (wanted a line); [|apply IH; assumption].
      rewrite limit_reached_room, room_writerow, Rs. simpl.
      exists true. rewrite <- add_rows_writerow, add_rows_nil. reflexivity. }
  destruct (L infile st R) as [b E]. rewrite E.
  rewrite limit_reached_room, room_add_rows, R. simpl.
  destruct b; reflexivity.
Qed.

End WithLimit.

(** X1.  Without [--limit] the run ends normally, and the rows it writes
    are exactly the decoded wanted lines -- the lines that start with "01"
    and whose trimmed characters 12 to 24 are in [ativos] -- in the order of
    the sources and, within a source, of the lines; the total is their
    number.  Where one source ends and the next begins does not matter. *)
Theorem extract_without_limit (a : Args) (arquivos : list (list string)) :
  limit a = None ->
  extract a arquivos
  = (Continue,
     {| sink := wanted_rows a (List.concat arquivos);
        linhas_processadas :=
          Z.of_nat (List.length (wanted_rows a (List.concat arquivos))) |}).
Proof.
  intros H. unfold extract. rewrite for_files_no_limit by assumption.
  unfold add_rows, initial_state. simpl. f_equal.
Qed.

Lemma extract_without_limit_witness :
  extract {| ativos := ["VALE3"]; limit := None |}
    [[line_petr4; line_vale3]; []; ["00COTAHIST"; line_vale3]]
  = (Continue,
     {| sink := [decoded line_vale3; decoded line_vale3];
        linhas_processadas := 2 |}).
Proof.
  exact (extract_without_limit {| ativos := ["VALE3"]; limit := None |}
           [[line_petr4; line_vale3]; []; ["00COTAHIST"; line_vale3]] eq_refl).
Defined.

(** X2.  With a limit [l] of at least one the rows written are the first
    [l] of the decoded wanted lines (all of them when there are fewer), the
    total is their number, and the run ends by [break] exactly when [l]
    wanted lines exist. *)
Theorem extract_with_limit (a : Args) (l : Z) (arquivos : list (list string)) :
  limit a = Some l -> (1 <= l)%Z ->
  extract a arquivos
  = (if (Z.to_nat l <=? List.length (wanted_rows a (List.concat arquivos)))%nat
     then Break else Continue,
     {| sink := firstn (Z.to_nat l) (wanted_rows a (List.concat arquivos));
        linhas_processadas :=
          Z.of_nat (Nat.min (Z.to_nat l)
                      (List.length (wanted_rows a (List.concat arquivos)))) |}).
Proof.
  intros H L. unfold extract.
  assert (R : room l initial_state = Z.to_nat l)
    by (unfold room, initial_state; simpl; f_equal; lia).
  rewrite (for_files_limit_exact a l H) by (rewrite R; lia).
  rewrite R. unfold add_rows, initial_state. simpl.
  rewrite length_firstn. f_equal.
Qed.

Lemma extract_with_limit_witness :
  extract {| ativos := ["VALE3"]; limit := Some 2%Z |}
    [[line_vale3; line_petr4]; [line_vale3; line_vale3]]
  = (Break,
     {| sink := [decoded line_vale3; decoded line_vale3];
        linhas_processadas := 2 |})
  /\ extract {| ativos := ["VALE3"]; limit := Some 5%Z |}
       [[line_vale3; line_petr4]; [line_vale3; line_vale3]]
     = (Continue,
        {| sink := [decoded line_vale3; decoded line_vale3; decoded line_vale3];
           linhas_processadas := 3 |}).
Proof.
  split.
  - exact (extract_with_limit {| ativos := ["VALE3"]; limit := Some 2%Z |} 2
             [[line_vale3; line_petr4]; [line_vale3; line_vale3]] eq_refl
             (proj1 (Z.leb_le 1 2) eq_refl)).
  - exact (extract_with_limit {| ativos := ["VALE3"]; limit := Some 5%Z |} 5
             [[line_vale3; line_petr4]; [line_vale3; line_vale3]] eq_refl
             (proj1 (Z.leb_le 1 5) eq_refl)).
Defined.

(** X3.  With a limit of zero or less, and at least one source, only the
    first source is read: the run writes the first wanted line of that
    source, if it has one, and ends by [break]; no later source adds a
    row. *)
Theorem extract_limit_not_positive (a : Args) (l : Z) (infile : list string)
  (rest : list (list string)) :
  limit a = Some l -> (l <= 0)%Z ->
  extract a (infile :: rest)
  = (Break,
     {| sink := firstn 1 (wanted_rows a infile);
        linhas_processadas :=
          Z.of_nat (List.length (firstn 1 (wanted_rows a infile))) |}).
Proof.
  intros H L. unfold extract.
  rewrite (for_files_no_room a l H)
    by (unfold room, initial_state; simpl; lia).
  unfold add_rows, initial_state. simpl. f_equal.
Qed.

Lemma extract_limit_not_positive_witness :
  extract {| ativos := ["VALE3"]; limit := Some (-3)%Z |}
    [[line_petr4]; [line_vale3]]
  = (Break, {| sink := []; linhas_processadas := 0 |}).
Proof.
  exact (extract_limit_not_positive
           {| ativos := ["VALE3"]; limit := Some (-3)%Z |} (-3)
           [line_petr4] [[line_vale3]] eq_refl
           (proj1 (Z.leb_le (-3) 0) eq_refl)).
Defined.

(** ** What the loop keeps *)

Lemma for_lines_appends (decode : string -> result Registro) (a : Args)
  (infile : list string) :
  forall st, exists rows,
    snd (for_lines decode a infile st) = add_rows rows st
    /\ Forall (fun r => exists line, In line infile /\ decode line = Ok r) rows.
Proof.
  induction infile as [|line rest IH]; intros st.
  - exists []. simpl. rewrite add_rows_nil. auto.
  - simpl for_lines.
    destruct (line_body_cases decode a line st) as [E|[[e E]|(r & D & E)]];
      rewrite E.
    + destruct (IH st) as (rows & S & F). exists rows. split; [exact S|].
      eapply Forall_impl; [|exact F]. intros r (x & I & D). exists x. simpl. auto.
    + exists []. simpl. rewrite add_rows_nil. auto.
    + assert (Hr : exists x, In x (line :: rest) /\ decode x = Ok r)
        by (exists line; simpl; auto).
      destruct (limit_reached a (writerow r st)).
      * exists [r]. simpl. rewrite <- add_rows_writerow, add_rows_nil. auto.
      * destruct (IH (writerow r st)) as (rows & S & F). exists (r :: rows).
        rewrite S, add_rows_writerow. split; [reflexivity|].
        constructor; [exact Hr|].
        eapply Forall_impl; [|exact F]. intros r' (x & I & D'). exists x.
        simpl. auto.
Qed.

Lemma for_files_appends (decode : string -> result Registro) (a : Args)
  (arquivos : list (list string)) :
  forall st, exists rows,
    snd (for_files decode a arquivos st) = add_rows rows st
    /\ Forall (fun r => exists line,
                 In line (List.concat arquivos) /\ decode line = Ok r) rows.
Proof.
  induction arquivos as [|infile rest IH]; intros st.
  - exists []. simpl. rewrite add_rows_nil. auto.
  - simpl for_files. unfold file_body.
    destruct (for_lines_appends decode a infile st) as (rows1 & S1 & F1).
    assert (F1' : Forall (fun r => exists line,
               In line (List.concat (infile :: rest)) /\ decode line = Ok r) rows1).
    { eapply Forall_impl; [|exact F1]. intros r (x & I & D). exists x.
      simpl. rewrite in_app_iff. auto. }
    destruct (for_lines decode a infile st) as [fl st1]. simpl in S1. subst st1.
    assert (Stop : forall f : flow, exists rows,
              snd (f, add_rows rows1 st) = add_rows rows st
              /\ Forall (fun r => exists line,
                   In line (List.concat (infile :: rest)) /\ decode line = Ok r)
                   rows)
      by (intros f; exists rows1; auto).
    assert (Go : exists rows,
              snd (for_files decode a rest (add_rows rows1 st)) = add_rows rows st
              /\ Forall (fun r => exists line,
                   In line (List.concat (infile :: rest)) /\ decode line = Ok r)
                   rows).
    { destruct (IH (add_rows rows1 st)) as (rows2 & S2 & F2).
      exists (rows1 ++ rows2)%list. rewrite S2, add_rows_app.
      split; [reflexivity|]. apply Forall_app. split; [exact F1'|].
      eapply Forall_impl; [|exact F2]. intros r (x & I & D). exists x.
      simpl. rewrite in_app_iff. auto. }
    destruct fl; [| |apply Stop];
      destruct (limit_reached a (add_rows rows1 st)); (apply Stop || apply Go).
Qed.

(** X4.  Whatever the decoder does (it may raise), whatever the limit and
    from whatever state: the loop only appends to the rows already written,
    adds to the counter exactly the number of rows it appends, and every
    row it appends is what the decoder returned for a line of the
    sources.  So the total reported is the number of rows written, also
    when the run ends by [break] or by an exception. *)
Theorem loop_only_appends (decode : string -> result Registro) (a : Args)
  (arquivos : list (list string)) (st : State) :
  exists rows,
    sink (snd (for_files decode a arquivos st)) = (sink st ++ rows)%list
    /\ linhas_processadas (snd (for_files decode a arquivos st))
       = (linhas_processadas st + Z.of_nat (List.length rows))%Z
    /\ Forall (fun r => exists line,
                 In line (List.concat arquivos) /\ decode line = Ok r) rows.
Proof.
  destruct (for_files_appends decode a arquivos st) as (rows & S & F).
  exists rows. rewrite S. auto.
Qed.

Lemma mem_In (x : string) (xs : list string) : mem x xs = true <-> In x xs.
Proof.
  unfold mem. rewrite existsb_exists. split.
  - intros (y & I & E). apply String.eqb_eq in E. congruence.
  - intros I. exists x. split; [exact I | apply String.eqb_refl].
Qed.

Lemma wanted_rows_marked (a : Args) (lines : list string) :
  Forall (fun r => codigo_registro r = "01" /\ In (ativo r) (ativos a))
    (wanted_rows a lines).
Proof.
  unfold wanted_rows. apply Forall_forall. intros r I.
  apply in_map_iff in I as (line & <- & I).
  apply filter_In in I as [_ W]. unfold wanted in W.
  apply andb_true_iff in W as [M T].
  split; [apply String.eqb_eq; exact M | apply mem_In; exact T].
Qed.

Lemma Forall_firstn {A : Type} (P : A -> Prop) (n : nat) (xs : list A) :
  Forall P xs -> Forall P (firstn n xs).
Proof.
  intros H. rewrite <- (firstn_skipn n xs) in H.
  apply Forall_app in H. tauto.
Qed.

(** X5.  Whatever the limit, every row the run writes has "01" as
    [codigo_registro] and a ticker of [ativos] as [ativo], and the run
    never ends by an exception of the decoder. *)
Theorem rows_are_wanted_data_rows (a : Args) (arquivos : list (list string)) :
  Forall (fun r => codigo_registro r = "01" /\ In (ativo r) (ativos a))
    (sink (snd (extract a arquivos)))
  /\ (fst (extract a arquivos) = Continue \/ fst (extract a arquivos) = Break).
Proof.
  unfold extract. destruct (limit a) as [l|] eqn:H.
  - destruct (Z.le_gt_cases l 0) as [L|L].
    + destruct arquivos as [|infile rest]; [split; [constructor | auto]|].
      rewrite (for_files_no_room a l H)
        by (unfold room, initial_state; simpl; lia).
      split; [|auto].
      unfold add_rows, initial_state; cbn [snd sink app].
      apply Forall_firstn, wanted_rows_marked.
    + rewrite (for_files_limit_exact a l H)
        by (unfold room, initial_state; simpl; lia).
      split.
      * unfold add_rows, initial_state; cbn [snd sink app].
        apply Forall_firstn, wanted_rows_marked.
      * cbn [fst].
        destruct (room l initial_state
                  <=? Datatypes.length (wanted_rows a (List.concat arquivos)))%nat;
          auto.
  - rewrite for_files_no_limit by assumption. split; [|auto].
    simpl. apply wanted_rows_marked.
Qed.

(** ** The wanted tickers as a set *)

Lemma limit_reached_ext (a1 a2 : Args) (st : State) :
  limit a1 = limit a2 -> limit_reached a1 st = limit_reached a2 st.
Proof. intros H. unfold limit_reached. rewrite H. reflexivity. Qed.

Lemma for_files_wanted_ext (a1 a2 : Args) :
  (forall line, wanted a1 line = wanted a2 line) -> limit a1 = limit a2 ->
  forall arquivos st,
    for_files parse_line a1 arquivos st = for_files parse_line a2 arquivos st.
Proof.
  intros W L.
  assert (B : forall line st,
            line_body parse_line a1 line st = line_body parse_line a2 line st).
  { intros line st. rewrite !line_body_wanted, W.
    rewrite (limit_reached_ext a1 a2 _ L). reflexivity. }
  assert (F : forall infile st,
            for_lines parse_line a1 infile st = for_lines parse_line a2 infile st).
  { induction infile as [|line rest IH]; intros st; [reflexivity|].
    simpl. rewrite B. destruct (line_body parse_line a2 line st) as [[| |e] st1];
      auto. }
  induction arquivos as [|infile rest IH]; intros st; [reflexivity|].
  simpl. unfold file_body. rewrite F.
  destruct (for_lines parse_line a2 infile st) as [fl st1].
  rewrite (limit_reached_ext a1 a2 _ L).
  destruct fl; try reflexivity; destruct (limit_reached a2 st1); auto.
Qed.

Lemma mem_ext (x : string) (xs ys : list string) :
  (forall y, In y xs <-> In y ys) -> mem x xs = mem x ys.
Proof.
  intros H. destruct (mem x ys) eqn:E.
  - apply mem_In. apply H. apply mem_In. exact E.
  - destruct (mem x xs) eqn:E'; [|reflexivity].
    apply mem_In in E'. apply H in E'. apply mem_In in E'. congruence.
Qed.

(** X6.  The run depends on the wanted tickers as a set only: two lists of
    tickers with the same members, in whatever order and with whatever
    repetitions, give the same rows, the same total and the same end of the
    run. *)
Theorem extract_depends_on_set (a1 a2 : Args) (arquivos : list (list string)) :
  (forall x, In x (ativos a1) <-> In x (ativos a2)) ->
  limit a1 = limit a2 ->
  extract a1 arquivos = extract a2 arquivos.
Proof.
  intros S L. unfold extract. apply for_files_wanted_ext; [|exact L].
  intros line. unfold wanted. rewrite (mem_ext _ _ _ S). reflexivity.
Qed.

Lemma extract_depends_on_set_witness :
  extract {| ativos := ["PETR4"; "VALE3"; "PETR4"]; limit := Some 3%Z |}
    [[line_vale3; line_petr4]]
  = extract {| ativos := ["VALE3"; "PETR4"]; limit := Some 3%Z |}
      [[line_vale3; line_petr4]].
Proof.
  apply (extract_depends_on_set
           {| ativos := ["PETR4"; "VALE3"; "PETR4"]; limit := Some 3%Z |}
           {| ativos := ["VALE3"; "PETR4"]; limit := Some 3%Z |}).
  - intros x. simpl. tauto.
  - reflexivity.
Defined.

Lemma ativo_trimmed (line : string) :
  trimmed (ativo (decoded line))
  /\ (String.length (ativo (decoded line)) <= 12)%nat.
Proof.
  change (ativo (decoded line)) with (py_strip (py_slice 12 24 line)). split.
  - destruct (py_strip_spec (py_slice 12 24 line)) as (_ & _ & _ & _ & _ & T).
    exact T.
  - pose proof (length_py_strip (py_slice 12 24 line)).
    pose proof (py_slice_bound 12 24 line). simpl in *. lia.
Qed.

(** X7.  The decoded ticker has no white space at either end and at most
    12 characters, and the test of membership is on the exact text.  So a
    wanted ticker that starts or ends with white space (as in
    "VALE3, PETR4", whose second piece is " PETR4") or that is longer than
    12 characters selects nothing: the run is the same without it. *)
Theorem untrimmed_ticker_selects_nothing (a : Args) (w : string)
  (arquivos : list (list string)) :
  ~ trimmed w \/ (12 < String.length w)%nat ->
  extract {| ativos := w :: ativos a; limit := limit a |} arquivos
  = extract a arquivos.
Proof.
  intros H. unfold extract. apply for_files_wanted_ext; [|reflexivity].
  intros line. unfold wanted. f_equal. unfold mem. simpl.
  destruct (String.eqb_spec (py_strip (py_slice 12 24 line)) w) as [E|N];
    [|reflexivity].
  exfalso. destruct (ativo_trimmed line) as [T B].
  change (ativo (decoded line)) with (py_strip (py_slice 12 24 line)) in T, B.
  rewrite E in T, B. destruct H as [H|H]; [contradiction | lia].
Qed.

Lemma untrimmed_ticker_selects_nothing_witness :
  extract {| ativos := [" PETR4"; "VALE3"]; limit := None |}
    [[line_vale3; line_petr4]]
  = extract {| ativos := ["VALE3"]; limit := None |} [[line_vale3; line_petr4]].
Proof.
  apply (untrimmed_ticker_selects_nothing
           {| ativos := ["VALE3"]; limit := None |} " PETR4").
  left. intros [F _]. specialize (F " "%char eq_refl). discriminate.
Defined.

(** ** The list of wanted tickers *)

Lemma py_split_cons (sep : ascii) (s : string) :
  exists p ps, py_split sep s = p :: ps.
Proof.
  destruct s as [|c s]; simpl; [eauto|].
  destruct (Ascii.eqb c sep); [eauto|].
  destruct (py_split sep s); eauto.
Qed.

Lemma py_join_cons (sep p : string) (q : string) (qs : list string) :
  py_join sep (p :: q :: qs) = p ++ sep ++ py_join sep (q :: qs).
Proof. reflexivity. Qed.

Lemma py_split_spec (sep : ascii) (s : string) :
  py_join (String sep "") (py_split sep s) = s
  /\ Forall (fun p => count_char sep p = 0%nat) (py_split sep s)
  /\ List.length (py_split sep s) = S (count_char sep s).
Proof.
  induction s as [|c s (J & F & L)]; simpl py_split.
  - repeat split. repeat constructor.
  - destruct (py_split_cons sep s) as (p & ps & E). rewrite E in *.
    simpl count_char. destruct (Ascii.eqb_spec c sep) as [->|N].
    + split; [|split].
      * rewrite py_join_cons, J. reflexivity.
      * constructor; [reflexivity | exact F].
      * simpl. simpl in L. lia.
    + split; [|split].
      * destruct ps as [|q qs].
        -- simpl in *. congruence.
        -- rewrite py_join_cons in J |- *. rewrite <- J. reflexivity.
      * inversion F as [|? ? Fp Fps]; subst. constructor; [|exact Fps].
        simpl. destruct (Ascii.eqb_spec c sep); [contradiction|]. exact Fp.
      * simpl in *. exact L.
Qed.

Lemma py_split_trailing (sep : ascii) (s : string) :
  exists p ps, py_split sep (s ++ String sep "") = p :: ps /\ In "" ps.
Proof.
  induction s as [|c s (p & ps & E & I)]; simpl.
  - rewrite Ascii.eqb_refl. exists "", [""]. simpl. auto.
  - rewrite E. destruct (Ascii.eqb c sep).
    + exists "", (p :: ps). simpl. auto.
    + exists (String c p), ps. auto.
Qed.

(** X8.  The wanted tickers are the pieces of the argument between its
    commas, taken as they are: joined again with commas they give back the
    argument, no piece holds a comma, and there is one piece more than
    there are commas -- so an argument without a comma, the empty one
    included, is a single ticker, and a comma at the end adds the empty
    ticker. *)
Theorem parse_ativos_pieces (arg : string) :
  py_join "," (parse_ativos arg) = arg
  /\ Forall (fun p => count_char "," p = 0%nat) (parse_ativos arg)
  /\ List.length (parse_ativos arg) = S (count_char "," arg)
  /\ (count_char "," arg = 0%nat -> parse_ativos arg = [arg])
  /\ In "" (parse_ativos (arg ++ ",")).
Proof.
  unfold parse_ativos.
  destruct (py_split_spec "," arg) as (J & F & L).
  split; [exact J|]. split; [exact F|]. split; [exact L|]. split.
  - intros Z. rewrite Z in L.
    destruct (py_split "," arg) as [|p [|q qs]]; try discriminate.
    simpl in J. congruence.
  - destruct (py_split_trailing "," arg) as (p & ps & E & I).
    rewrite E. simpl. auto.
Qed.

(** ** The row of the CSV *)

(** X9.  The keys of the dictionary [parse_line] returns are the names in
    [fieldnames], in the same order and each once.  So [DictWriter] accepts
    every decoded record (no key is refused as an extra field) and writes
    21 cells, the value of each key under the header of the same name;
    none is filled by the default for a missing key. *)
Theorem csv_row_aligned (r : Registro) :
  map fst (registro_items r) = fieldnames
  /\ NoDup fieldnames
  /\ List.length fieldnames = 21%nat
  /\ dict_to_list fieldnames (registro_items r)
     = Ok (map snd (registro_items r))
  /\ (forall key v, dict_get key (registro_items r) = Some v ->
        In key fieldnames).
Proof.
  split; [reflexivity|]. split.
  { unfold fieldnames.
    repeat (constructor; [simpl; intuition discriminate|]). constructor. }
  split; [reflexivity|]. split; [reflexivity|].
  intros key v H.
  assert (G : forall d, dict_get key d = Some v -> In key (map fst d)).
  { induction d as [|[k x] d IH]; simpl; [discriminate|].
    destruct (String.eqb_spec k key); auto. }
  apply G in H. exact H.
Qed.

(** ** The layout *)

Lemma take_drop (n : nat) (s : string) : take n s ++ drop n s = s.
Proof.
  revert s. induction n as [|n IH]; intros [|c s]; simpl; try reflexivity.
  rewrite IH. reflexivity.
Qed.

Lemma drop_drop (n m : nat) (s : string) : drop m (drop n s) = drop (n + m) s.
Proof.
  revert s. induction n as [|n IH]; intros s; simpl; [reflexivity|].
  destruct s as [|c s]; [destruct m; reflexivity | apply IH].
Qed.

Lemma py_slice_next (a b : nat) (s : string) :
  (a <= b)%nat -> py_slice a b s ++ drop b s = drop a s.
Proof.
  intros H. unfold py_slice.
  replace b with (a + (b - a))%nat at 2 by lia.
  rewrite <- drop_drop. apply take_drop.
Qed.

(** X10.  The twenty fixed columns of [parse_line] are laid end to end from
    offset 0 to offset 190, each starting where the one before ends, and
    they are the ranges the record is built from.  So the slices of a line,
    one after the other and followed by the text from offset 190 on, are
    the line itself: no character is dropped and none is read by two
    columns. *)
Theorem columns_tile_line (line : string) :
  fold_right append (py_slice_from 190 line) (column_slices line) = line
  /\ map fst columns = removelast (0%nat :: map snd columns)
  /\ last (map snd columns) 0%nat = 190%nat
  /\ (forall ab, In ab columns <-> In ab field_ranges).
Proof.
  split; [|split; [reflexivity|split; [reflexivity|]]].
  - unfold column_slices, columns, py_slice_from. simpl map. simpl fold_right.
    repeat (rewrite py_slice_next by (apply Nat.leb_le; reflexivity)).
    reflexivity.
  - intros ab. unfold columns, field_ranges. simpl. tauto.
Qed.

(** ** White space after a full record *)

Lemma take_app_le (n : nat) (s t : string) :
  (n <= String.length s)%nat -> take n (s ++ t) = take n s.
Proof.
  revert s. induction n as [|n IH]; intros [|c s] H; simpl in *;
    try reflexivity; [lia|].
  rewrite IH by lia. reflexivity.
Qed.

Lemma drop_app_le (n : nat) (s t : string) :
  (n <= String.length s)%nat -> drop n (s ++ t) = drop n s ++ t.
Proof.
  revert s. induction n as [|n IH]; intros [|c s] H; simpl in *;
    try reflexivity; [lia|].
  apply IH. lia.
Qed.

Lemma py_slice_app (a b : nat) (s t : string) :
  (b <= String.length s)%nat -> py_slice a b (s ++ t) = py_slice a b s.
Proof.
  intros H. unfold py_slice.
  destruct (Nat.le_gt_cases a b) as [L|L].
  - rewrite drop_app_le by lia. apply take_app_le. rewrite length_drop. lia.
  - replace (b - a)%nat with 0%nat by lia. reflexivity.
Qed.

Lemma rstrip_all_space (s : string) :
  string_forall isspace s = true -> rstrip s = "".
Proof.
  induction s as [|c s IH]; simpl; [reflexivity|].
  intros H. apply andb_true_iff in H as [Hc Hs]. rewrite IH, Hc by assumption.
  reflexivity.
Qed.

Lemma rstrip_app_space (s ws : string) :
  string_forall isspace ws = true -> rstrip (s ++ ws) = rstrip s.
Proof.
  intros H. induction s as [|c s IH]; simpl.
  - apply rstrip_all_space. exact H.
  - rewrite IH. reflexivity.
Qed.

Lemma py_strip_app_space (s ws : string) :
  string_forall isspace ws = true -> py_strip (s ++ ws) = py_strip s.
Proof.
  intros H. unfold py_strip. induction s as [|c s IH]; simpl.
  - rewrite lstrip_all_space by assumption. reflexivity.
  - destruct (isspace c); [exact IH|].
    change (String c (s ++ ws)) with (String c s ++ ws).
    apply rstrip_app_space. exact H.
Qed.

Lemma tail_text_app_space (line ws : string) :
  (190 <= String.length line)%nat -> string_forall isspace ws = true ->
  tail_text (line ++ ws) = tail_text line.
Proof.
  intros L W. unfold tail_text, py_slice_from.
  rewrite drop_app_le, py_strip_app_space, length_append by assumption.
  destruct (Nat.ltb_spec 190 (String.length line)) as [G|G].
  - rewrite (proj2 (Nat.ltb_lt _ _)) by lia. reflexivity.
  - assert (E : drop 190 line = "").
    { pose proof (length_drop 190 line) as D.
      destruct (drop 190 line); [reflexivity|]. simpl in D. lia. }
    rewrite E. destruct (190 <? String.length line + String.length ws)%nat;
      reflexivity.
Qed.

(** X11.  White space after a full record changes nothing: when the line
    has at least 190 characters, the line followed by any white space --
    its end of line, be it LF or CR LF, or padding -- decodes to the same
    record as the line alone. *)
Theorem trailing_space_ignored (line ws : string) :
  (190 <= String.length line)%nat ->
  string_forall isspace ws = true ->
  parse_line (line ++ ws) = parse_line line.
Proof.
  intros L W. rewrite !parse_line_decoded. f_equal. unfold decoded.
  rewrite tail_text_app_space by assumption.
  rewrite !(py_slice_app _ _ line ws) by lia.
  reflexivity.
Qed.

Lemma trailing_space_ignored_witness :
  parse_line (record_190 ++ String "013" newline) = parse_line record_190
  /\ parse_line (line_vale3 ++ "  ") = parse_line line_vale3.
Proof.
  split.
  - apply (trailing_space_ignored record_190 (String "013" newline)).
    + apply Nat.leb_le. reflexivity.
    + reflexivity.
  - apply (trailing_space_ignored line_vale3 "  ").
    + apply Nat.leb_le. reflexivity.
    + reflexivity.
Defined.

(** ** The floats of the price columns *)

Lemma shr_fexp_exponent (m e : Z) (l : location) :
  (e <= snd (shr_fexp prec emax m e l))%Z.
Proof.
  unfold shr_fexp, shr.
  destruct (fexp prec emax (Zdigits2 m + e) - e)%Z; simpl; lia.
Qed.

Lemma binary_round_aux_shape (sx : bool) (mx ex : Z) (lx : location) :
  (0 <= mx)%Z -> (Zdigits2 mx <= 400)%Z -> (-200 <= ex <= 200)%Z ->
  binary_round_aux prec emax sx mx ex lx = S754_zero sx
  \/ exists m e,
       binary_round_aux prec emax sx mx ex lx = S754_finite sx m e
       /\ (ex <= e)%Z
       /\ (e <= Z.max (Z.max ex (-1074)) (2 * Zdigits2 mx + ex))%Z
       /\ (Z.pos (digits2_pos m) <= Zdigits2 mx + 1)%Z.
Proof.
  intros Hm Hd He. unfold binary_round_aux.
  pose proof (shr_fexp_bound mx ex lx Hm) as B1.
  pose proof (shr_fexp_exponent mx ex lx) as X1.
  destruct (shr_fexp prec emax mx ex lx) as [mrs' e'].
  destruct B1 as [Bm Be]. simpl in X1.
  set (m1 := round_nearest_even (shr_m mrs') (loc_of_shr_record mrs')).
  pose proof (round_nearest_even_bound (shr_m mrs') (loc_of_shr_record mrs')) as R.
  fold m1 in R.
  assert (Hm1 : (0 <= m1)%Z) by lia.
  pose proof (shr_fexp_bound m1 e' loc_Exact Hm1) as B2.
  pose proof (shr_fexp_exponent m1 e' loc_Exact) as X2.
  destruct (shr_fexp prec emax m1 e' loc_Exact) as [mrs'' e''].
  destruct B2 as [Bm2 Be2]. simpl in X2.
  assert (D1 : (Zdigits2 m1 <= Zdigits2 mx + 1)%Z).
  { transitivity (Zdigits2 (mx + 1)); [apply Zdigits2_mono; lia|].
    apply Zdigits2_succ. exact Hm. }
  pose proof (Zdigits2_nonneg m1) as N1.
  pose proof (Zdigits2_nonneg mx) as N0.
  assert (E2 : (e'' <= Z.max (Z.max ex (-1074)) (2 * Zdigits2 mx + ex))%Z).
  { unfold fexp, emin, prec, emax in *. lia. }
  assert (E3 : (e'' <= 971)%Z).
  { unfold fexp, emin, prec, emax in *. lia. }
  destruct (shr_m mrs'') as [|m|m] eqn:M; [left; reflexivity| |lia].
  right. exists m, e''.
  replace (e'' <=? emax - prec)%Z with true
    by (symmetry; apply Z.leb_le; unfold emax, prec; lia).
  split; [reflexivity|]. split; [lia|]. split; [exact E2|].
  change (Z.pos (digits2_pos m)) with (Zdigits2 (Z.pos m)).
  transitivity (Zdigits2 m1); [apply Zdigits2_mono; lia | exact D1].
Qed.

Lemma binary_round_shape (sx : bool) (m : positive) :
  (Z.pos m < 2 ^ 64)%Z ->
  binary_round prec emax sx m 0 = S754_zero sx
  \/ exists m' e,
       binary_round prec emax sx m 0 = S754_finite sx m' e
       /\ (-52 <= e <= 128)%Z /\ (Z.pos (digits2_pos m') <= 65)%Z.
Proof.
  intros Hm. unfold binary_round.
  assert (Dm : (1 <= Z.pos (digits2_pos m) <= 64)%Z).
  { rewrite Zdigits2_pos_log2.
    assert (Z.log2 (Z.pos m) < 64)%Z by (apply Z.log2_lt_pow2; lia).
    pose proof (Z.log2_nonneg (Z.pos m)). lia. }
  assert (G : forall mz ez,
            (-52 <= ez <= 0)%Z -> (Z.pos (digits2_pos mz) <= 64)%Z ->
            binary_round_aux prec emax sx (Z.pos mz) ez loc_Exact = S754_zero sx
            \/ exists m' e,
                 binary_round_aux prec emax sx (Z.pos mz) ez loc_Exact
                 = S754_finite sx m' e
                 /\ (-52 <= e <= 128)%Z /\ (Z.pos (digits2_pos m') <= 65)%Z).
  { intros mz ez Hez Hmz.
    destruct (binary_round_aux_shape sx (Z.pos mz) ez loc_Exact)
      as [Z|(m' & e & E & L1 & L2 & L3)]; simpl Zdigits2; try lia; [auto|].
    right. exists m', e. simpl Zdigits2 in L2, L3. split; [exact E|]. lia. }
  unfold shl_align.
  destruct (fexp prec emax (Z.pos (digits2_pos m) + 0) - 0)%Z as [|d|d] eqn:E.
  - apply G; lia.
  - apply G; lia.
  - unfold fexp, emin, prec, emax in *. apply G; [lia|].
    rewrite digits2_pos_iter. lia.
Qed.

Lemma xorb_false_r' (b : bool) : xorb b false = b.
Proof. destruct b; reflexivity. Qed.

Lemma SFdiv_100_shape (sx : bool) (m : positive) (e : Z) :
  (-52 <= e <= 128)%Z -> (Z.pos (digits2_pos m) <= 65)%Z ->
  finite_with_sign sx (SFdiv prec emax (S754_finite sx m e) float_100).
Proof.
  intros He Hm. unfold float_100, SFdiv, SFdiv_core_binary.
  rewrite xorb_false_r'.
  set (my := 7036874417766400%positive).
  change (Zdigits2 (Z.pos my)) with 53%Z.
  change (Zdigits2 (Z.pos m)) with (Z.pos (digits2_pos m)).
  set (d1 := Z.pos (digits2_pos m)) in *.
  assert (Hd1 : (1 <= d1)%Z) by (unfold d1; lia).
  set (e' := Z.min (fexp prec emax (d1 + e - (53 + -46))) (e - -46)).
  assert (He' : (-111 <= e' <= 174)%Z)
    by (unfold e', fexp, emin, prec, emax; lia).
  set (s := (e - -46 - e')%Z).
  assert (Hs : (0 <= s <= 285)%Z) by (unfold s, e'; lia).
  set (m' := match s with
             | 0%Z => Z.pos m
             | Z.pos _ => Z.shiftl (Z.pos m) s
             | Z.neg _ => 0%Z
             end).
  assert (Hm' : (0 <= m')%Z /\ (Zdigits2 m' <= 350)%Z).
  { unfold m'. destruct s as [|p|p] eqn:S.
    - split; [lia|]. simpl. fold d1. lia.
    - rewrite Z.shiftl_mul_pow2 by lia.
      assert (P : (0 < 2 ^ Z.pos p)%Z) by (apply Z.pow_pos_nonneg; lia).
      split; [lia|].
      destruct (Z.pos m * 2 ^ Z.pos p)%Z as [|q|q] eqn:Q; try lia.
      simpl. rewrite Zdigits2_pos_log2, <- Q.
      rewrite <- Z.shiftl_mul_pow2 by lia.
      rewrite Z.log2_shiftl by lia.
      pose proof (Zdigits2_pos_log2 m) as Lm. fold d1 in Lm. lia.
    - lia. }
  destruct Hm' as [Hm0 Hmd].
  pose proof (Z.div_eucl_eq m' (Z.pos my) ltac:(lia)) as DE.
  pose proof (Z.mod_pos_bound m' (Z.pos my) ltac:(lia)) as MB.
  unfold Z.modulo in MB.
  destruct (Z.div_eucl m' (Z.pos my)) as [q r].
  assert (Hq : (0 <= q <= m')%Z) by nia.
  destruct (binary_round_aux_shape sx q e' (new_location (Z.pos my) r))
    as [Z|(m2 & e2 & E & _)].
  - lia.
  - pose proof (Zdigits2_mono q m' Hq). lia.
  - lia.
  - left. exact Z.
  - right. eauto.
Qed.

(** The float [n / 100.0] of an integer read in a slice is a zero or a
    finite number, with the sign of [n]. *)
Lemma div100_shape (n : Z) :
  (Z.abs n < 2 ^ 64)%Z -> finite_with_sign (n <? 0)%Z (div100 n).
Proof.
  intros H. unfold div100.
  destruct n as [|p|p]; simpl binary_normalize.
  - left. reflexivity.
  - change (Z.pos p <? 0)%Z with false.
    destruct (binary_round_shape false p ltac:(lia)) as [Z|(m & e & E & B1 & B2)].
    + rewrite Z. left. reflexivity.
    + rewrite E. apply SFdiv_100_shape; assumption.
  - change (Z.neg p <? 0)%Z with true.
    destruct (binary_round_shape true p ltac:(lia)) as [Z|(m & e & E & B1 & B2)].
    + rewrite Z. left. reflexivity.
    + rewrite E. apply SFdiv_100_shape; assumption.
Qed.

Lemma price_value_shape (s : string) :
  (String.length s <= 16)%nat ->
  price_value s = None
  \/ exists n x, py_int s = Ok n /\ price_value s = Some x
                 /\ finite_with_sign (n <? 0)%Z x.
Proof.
  intros W. unfold price_value. destruct (py_int s) as [n|e] eqn:E; [|auto].
  right. exists n, (div100 n). split; [reflexivity|]. split; [reflexivity|].
  apply div100_shape. eapply py_int_length_16; eassumption.
Qed.

(** X12.  A price or volume column never holds an infinity or a NaN: its
    value is [None], or the float of an integer [n] that [int()] read in
    the slice, and that float is a zero or a finite number with the sign
    of [n] (so it is negative only when the slice carries a minus sign). *)
Theorem price_fields_finite (line : string) :
  exists r, parse_line line = Ok r
    /\ Forall (fun '(a, b, f) =>
         f r = None
         \/ exists n x, py_int (py_slice a b line) = Ok n /\ f r = Some x
                        /\ finite_with_sign (n <? 0)%Z x) price_fields.
Proof.
  exists (decoded line). split; [apply parse_line_decoded|].
  repeat apply Forall_cons; try apply Forall_nil; simpl;
    apply price_value_shape;
    (eapply Nat.le_trans; [apply py_slice_bound | cbv; repeat constructor]).
Qed.

(** ** Lines that end before a column *)

(** X13.  A column that starts at or after the end of the line decodes to
    its default: the empty text for a text column and for the date, [None]
    for a price or volume, 0 for an integer column.  So the line "01"
    alone decodes to "01" followed by defaults. *)
Theorem short_line_defaults (line : string) :
  exists r, parse_line line = Ok r
    /\ Forall (fun '(a, b, f) =>
         (String.length line <= a)%nat -> f r = "") raw_fields
    /\ Forall (fun '(a, b, f) =>
         (String.length line <= a)%nat -> f r = "") trimmed_fields
    /\ ((String.length line <= 2)%nat -> data_pregao r = "")
    /\ Forall (fun '(a, b, f) =>
         (String.length line <= a)%nat -> f r = None) price_fields
    /\ Forall (fun '(a, b, f) =>
         (String.length line <= a)%nat -> f r = 0%Z) integer_fields.
Proof.
  exists (decoded line). split; [apply parse_line_decoded|].
  split; [|split; [|split; [|split]]].
  - repeat apply Forall_cons; try apply Forall_nil; simpl; intros H;
      apply py_slice_short; exact H.
  - repeat apply Forall_cons; try apply Forall_nil; simpl; intros H;
      rewrite py_slice_short by exact H; reflexivity.
  - intros H. simpl. rewrite py_slice_short by exact H. reflexivity.
  - repeat apply Forall_cons; try apply Forall_nil; simpl; intros H;
      rewrite py_slice_short by exact H; reflexivity.
  - repeat apply Forall_cons; try apply Forall_nil; simpl; intros H;
      rewrite py_slice_short by exact H; reflexivity.
Qed.
